(** * Healthy: prescription analysis and food-safety checking

    A shallow embedding of the rule-based core of the repository
    ([models.py], [rag_engine.py], [web_scraper.py]) together with the
    properties that its specification states about it.

    Modelling conventions.
    - A Python [str] is a [string]; the development covers ASCII text, on
      which [str.lower] folds exactly the letters [A]-[Z] and the classes
      [\w], [\s], [\d] of [re] are the ASCII ones below.
    - A Python [list] of strings is a [list string]; [list(set(xs))] is
      [list_set xs].  Python leaves the order of the result unspecified, so
      every statement about such a list speaks of membership and
      repetitions only.
    - An argument that callers may leave as [None] is an [option]; a
      [try]/[except] block is a body that ends in [Ok] or [Raise], wrapped
      by the function that turns [Raise] into the fallback value. *)

From Stdlib Require Import String Ascii List Bool Arith Lia.
Import ListNotations.
Open Scope string_scope.
Open Scope list_scope.
Open Scope bool_scope.

(* ================================================================== *)
(** * Python string primitives *)
(* ================================================================== *)

Module Py.

(** [c.lower()] on one ASCII character. *)
Definition lower_ascii (c : ascii) : ascii :=
  let n := nat_of_ascii c in
  if ((65 <=? n)%nat && (n <=? 90)%nat) then ascii_of_nat (n + 32) else c.

(** [s.lower()]. *)
Fixpoint lower (s : string) : string :=
  match s with
  | EmptyString => EmptyString
  | String c s' => String (lower_ascii c) (lower s')
  end.

(** [t.startswith(s)]. *)
Fixpoint startswith (s t : string) : bool :=
  match s, t with
  | EmptyString, _ => true
  | String _ _, EmptyString => false
  | String a s', String b t' => Ascii.eqb a b && startswith s' t'
  end.

(** [s in t] for two strings: [s] occurs in [t] as a contiguous run. *)
Fixpoint str_in (s t : string) : bool :=
  startswith s t ||
  match t with
  | EmptyString => false
  | String _ t' => str_in s t'
  end.

(** [x in xs] for a string and a list of strings. *)
Definition list_in (x : string) (xs : list string) : bool :=
  existsb (String.eqb x) xs.

(** [list(set(xs))]: the distinct elements of [xs], once each. *)
Definition list_set (xs : list string) : list string :=
  nodup string_dec xs.

(** [text.split('\n\n')]: the pieces between successive, non-overlapping
    occurrences of two line feeds, scanning from the left.  [cur] holds the
    characters read so far of the piece under construction. *)
Fixpoint split_nn_acc (cur : string) (s : string) : list string :=
  match s with
  | EmptyString => [cur]
  | String c s' =>
      match s' with
      | String d rest =>
          if Ascii.eqb c "010" && Ascii.eqb d "010"
          then cur :: split_nn_acc EmptyString rest
          else split_nn_acc (cur ++ String c EmptyString)%string s'
      | EmptyString => [(cur ++ String c EmptyString)%string]
      end
  end.

Definition split_nn (text : string) : list string :=
  split_nn_acc EmptyString text.

(** [text[:n]]. *)
Definition take (n : nat) (text : string) : string :=
  String.substring 0 n text.

(** [s.split(',')]. *)
Fixpoint split_comma_acc (cur : string) (s : string) : list string :=
  match s with
  | EmptyString => [cur]
  | String c s' =>
      if Ascii.eqb c ","
      then cur :: split_comma_acc EmptyString s'
      else split_comma_acc (cur ++ String c EmptyString)%string s'
  end.

Definition split_comma (s : string) : list string :=
  split_comma_acc EmptyString s.

(** [c.isspace()] on ASCII text. *)
Definition isspace (c : ascii) : bool :=
  let n := nat_of_ascii c in
  ((9 <=? n)%nat && (n <=? 13)%nat) || ((28 <=? n)%nat && (n <=? 32)%nat).

Fixpoint lstrip (s : string) : string :=
  match s with
  | EmptyString => EmptyString
  | String c s' => if isspace c then lstrip s' else s
  end.

Fixpoint rstrip (s : string) : string :=
  match s with
  | EmptyString => EmptyString
  | String c s' =>
      match rstrip s' with
      | EmptyString => if isspace c then EmptyString else String c EmptyString
      | r => String c r
      end
  end.

(** [s.strip()]. *)
Definition strip (s : string) : string := rstrip (lstrip s).

(** Truth value of a list and of a string: non-empty. *)
Definition truthy {A} (l : list A) : bool :=
  match l with [] => false | _ :: _ => true end.

Definition truthy_str (s : string) : bool :=
  match s with EmptyString => false | String _ _ => true end.

(** What a [try] body ends in. *)
Inductive exn : Type :=
| AttributeError (attribute : string).

Inductive result (A : Type) : Type :=
| Ok (a : A)
| Raise (e : exn).

Arguments Ok {A} a.
Arguments Raise {A} e.

End Py.

(* ================================================================== *)
(** * models.py: the knowledge base *)
(* ================================================================== *)

Module FoodSafetyKnowledge.

(** A dict literal, in insertion order (the order [dict.items()] yields). *)
Definition table := list (string * list string).

Definition INTERACTIONS : table :=
  [ ("warfarin", ["green leafy vegetables"; "cranberries"; "grapefruit"]);
    ("statins", ["grapefruit"; "grapefruit juice"]);
    ("antibiotics", ["dairy"; "alcohol"; "caffeine"]);
    ("maoi", ["aged cheese"; "cured meats"; "draft beer"; "sauerkraut"; "soy sauce"]);
    ("ace inhibitors", ["bananas"; "potassium supplements"; "salt substitutes"]);
    ("digoxin", ["high-fiber foods"; "licorice"]);
    ("diuretics", ["licorice"; "alcohol"]);
    ("thyroid medication", ["soy"; "walnuts"; "high-fiber foods"]) ].

Definition ALLERGIES : list string :=
  [ "peanuts"; "tree nuts"; "milk"; "eggs"; "fish"; "shellfish";
    "soy"; "wheat"; "gluten"; "sesame" ].

Definition CONDITIONS : table :=
  [ ("diabetes", ["sugar"; "high carbs"; "honey"; "syrup"]);
    ("hypertension", ["salt"; "sodium"; "cured meats"; "pickles"; "canned soups"]);
    ("high cholesterol", ["saturated fats"; "trans fats"; "fatty meats"]);
    ("gout", ["red meat"; "organ meats"; "seafood"; "alcohol"; "high-fructose"]);
    ("kidney disease", ["phosphorus"; "potassium"; "sodium"; "protein"]);
    ("celiac", ["gluten"; "wheat"; "barley"; "rye"]);
    ("heart disease", ["saturated fat"; "trans fat"; "cholesterol"; "sodium"]);
    ("ibs", ["dairy"; "wheat"; "citrus fruits"; "beans"; "cabbage"]) ].

(** The test of both lookup loops, on the already lower-cased query:
    [key in name or name in key]. *)
Definition key_matches (key name : string) : bool :=
  Py.str_in key name || Py.str_in name key.

(** The loop shared by the two lookups: walk the items in order and return
    the foods of the first key that passes the test, [[]] after the loop. *)
Fixpoint first_match (t : table) (name : string) : list string :=
  match t with
  | [] => []
  | (key, foods) :: rest =>
      if key_matches key name then foods else first_match rest name
  end.

Definition get_risky_foods_for_medication (medication_name : string)
  : list string :=
  let medication_name := Py.lower medication_name in
  first_match INTERACTIONS medication_name.

Definition get_foods_to_avoid_for_condition (condition : string)
  : list string :=
  let condition := Py.lower condition in
  first_match CONDITIONS condition.

End FoodSafetyKnowledge.

(* ================================================================== *)
(** * The fragment of [re] that the extractors use *)
(* ================================================================== *)

Module Re.

Definition charset := ascii -> bool.

Definition between (lo hi : nat) (c : ascii) : bool :=
  let n := nat_of_ascii c in ((lo <=? n)%nat && (n <=? hi)%nat).

(** [\w] on ASCII text: letters, digits and the underscore. *)
Definition is_word : charset :=
  fun c => between 97 122 c || between 65 90 c || between 48 57 c
           || Ascii.eqb c "_".

(** [\s] on ASCII text: what [str.isspace] accepts, that is tab to carriage
    return, the four separators 28-31 and the blank. *)
Definition is_space : charset :=
  fun c => between 9 13 c || between 28 31 c || Ascii.eqb c " ".

(** [\d] on ASCII text. *)
Definition is_digit : charset := between 48 57.

(** [[^\.]]. *)
Definition not_dot : charset := fun c => negb (Ascii.eqb c ".").

(** Patterns.  Repetition is only ever applied to a character class in the
    source, so [Star] takes a class; groups carry their number. *)
Inductive regex : Type :=
| Eps
| Chr (p : charset)
| Seq (r1 r2 : regex)
| Alt (r1 r2 : regex)
| Star (p : charset)
| Opt (r : regex)
| Group (i : nat) (r : regex).

(** [p+] *)
Definition Plus (p : charset) : regex := Seq (Chr p) (Star p).

(** A run of literal characters. *)
Fixpoint Lit (s : string) : regex :=
  match s with
  | EmptyString => Eps
  | String c s' => Seq (Chr (Ascii.eqb c)) (Lit s')
  end.

(** A run of literal characters under [re.IGNORECASE]. *)
Fixpoint Lit_i (s : string) : regex :=
  match s with
  | EmptyString => Eps
  | String c s' =>
      Seq (Chr (fun x => Ascii.eqb (Py.lower_ascii x) (Py.lower_ascii c)))
          (Lit_i s')
  end.

Fixpoint seq (rs : list regex) : regex :=
  match rs with
  | [] => Eps
  | [r] => r
  | r :: rs' => Seq r (seq rs')
  end.

(** The spans of the groups that took part in a match, latest first. *)
Definition caps := list (nat * (nat * nat)).

Definition outcome := option (nat * caps).
Definition cont := string -> nat -> caps -> outcome.

Definition or_else (a : outcome) (b : unit -> outcome) : outcome :=
  match a with
  | Some x => Some x
  | None => b tt
  end.

(** Greedy [p*] followed by [k]: take the longest run first and give
    characters back one at a time while [k] fails. *)
Fixpoint star_k (p : charset) (s : string) (pos : nat) (cs : caps) (k : cont)
  : outcome :=
  match s with
  | String c s' =>
      if p c
      then or_else (star_k p s' (S pos) cs k) (fun _ => k s pos cs)
      else k s pos cs
  | EmptyString => k s pos cs
  end.

(** The backtracking matcher: [s] is the text from offset [pos] on, [k] is
    what remains to be matched.  Alternatives are tried left to right and
    optional parts are tried present first, as [re] does. *)
Fixpoint match_k (r : regex) (s : string) (pos : nat) (cs : caps) (k : cont)
  : outcome :=
  match r with
  | Eps => k s pos cs
  | Chr p =>
      match s with
      | String c s' => if p c then k s' (S pos) cs else None
      | EmptyString => None
      end
  | Seq r1 r2 => match_k r1 s pos cs (fun s1 p1 c1 => match_k r2 s1 p1 c1 k)
  | Alt r1 r2 => or_else (match_k r1 s pos cs k) (fun _ => match_k r2 s pos cs k)
  | Star p => star_k p s pos cs k
  | Opt r1 => or_else (match_k r1 s pos cs k) (fun _ => k s pos cs)
  | Group i r1 =>
      match_k r1 s pos cs (fun s1 p1 c1 => k s1 p1 ((i, (pos, p1)) :: c1))
  end.

(** A match anchored at offset [pos]: its end offset and group spans. *)
Definition match_at (r : regex) (s : string) (pos : nat) : outcome :=
  match_k r s pos [] (fun _ p c => Some (p, c)).

(** A match object: where it starts, where it ends, its group spans. *)
Definition match_obj := (nat * nat * caps)%type.

(** The scan of [re.finditer]: try each offset from the left; after a match
    resume at its end.  [skip] counts the characters of the last match that
    are still to be stepped over.  (None of the patterns of the source
    matches the empty string.) *)
Fixpoint scan (r : regex) (s : string) (pos skip : nat) {struct s}
  : list match_obj :=
  match skip with
  | S n =>
      match s with
      | String _ s' => scan r s' (S pos) n
      | EmptyString => []
      end
  | O =>
      match match_at r s pos with
      | Some (e, cs) =>
          (pos, e, cs) ::
          match s with
          | String _ s' => scan r s' (S pos) (e - S pos)
          | EmptyString => []
          end
      | None =>
          match s with
          | String _ s' => scan r s' (S pos) 0
          | EmptyString => []
          end
      end
  end.

Definition finditer (r : regex) (text : string) : list match_obj :=
  scan r text 0 0.

Fixpoint span_of (i : nat) (cs : caps) : option (nat * nat) :=
  match cs with
  | [] => None
  | (j, sp) :: cs' => if Nat.eqb i j then Some sp else span_of i cs'
  end.

(** [m.group(i)] for [i >= 1]: the text of the span, [''] for a group that
    did not take part (as [findall] reports it). *)
Definition group (text : string) (m : match_obj) (i : nat) : string :=
  match span_of i (snd m) with
  | Some (a, b) => String.substring a (b - a) text
  | None => EmptyString
  end.

(** [re.findall(r, text)] for a pattern with one group, and
    [[m[0] for m in re.findall(r, text)]] for a pattern with two: the text
    of group 1 of every match. *)
Definition findall_group1 (r : regex) (text : string) : list string :=
  map (fun m => group text m 1) (finditer r text).

(** [bool(re.search(r, text))]. *)
Definition search (r : regex) (text : string) : bool :=
  match finditer r text with
  | [] => false
  | _ :: _ => true
  end.

End Re.

(* ================================================================== *)
(** * web_scraper.py: ingredient and description extraction *)
(* ================================================================== *)

Module WebScraper.

(** The three patterns of [extract_ingredients_from_text], compiled with
    [re.IGNORECASE]. *)
Definition patterns : list Re.regex :=
  [ Re.seq [Re.Alt (Re.Lit_i "ingredients") (Re.Lit_i "contains");
            Re.Lit_i ":"; Re.Group 1 (Re.Plus Re.not_dot)];
    Re.seq [Re.Alt (Re.Lit_i "made from") (Re.Lit_i "composed of");
            Re.Lit_i ":"; Re.Group 1 (Re.Plus Re.not_dot)];
    Re.seq [Re.Alt (Re.Lit_i "ingredients include") (Re.Lit_i "contains");
            Re.Lit_i ":"; Re.Group 1 (Re.Plus Re.not_dot)] ].

Definition common_ingredients : list string :=
  [ "salt"; "sugar"; "water"; "flour"; "rice"; "wheat"; "corn"; "dairy";
    "milk"; "eggs"; "soy"; "nuts"; "peanuts"; "fish"; "shellfish";
    "gluten"; "wheat"; "vegetable oil"; "butter"; "cheese" ].

(** [[item.strip().lower() for item in match.split(',')]] *)
Definition items_of (m : string) : list string :=
  map (fun item => Py.lower (Py.strip item)) (Py.split_comma m).

Definition extract_ingredients_from_text (text : string) : list string :=
  let ingredients :=
    flat_map (fun pattern =>
                flat_map items_of (Re.findall_group1 pattern text))
             patterns in
  let ingredients :=
    if Py.truthy ingredients then ingredients
    else filter (fun ingredient => Py.str_in ingredient (Py.lower text))
                common_ingredients in
  Py.list_set ingredients.

(** [extract_description]: [paragraphs] is never empty, so the first
    [return] is always taken; the second one is kept as the source has it. *)
Definition extract_description (text : string) : string :=
  let paragraphs := Py.split_nn text in
  match paragraphs with
  | first :: _ => first
  | [] => (Py.take 200 text ++ "...")%string
  end.

End WebScraper.

(* ================================================================== *)
(** * rag_engine.py: text mining and the safety evaluator *)
(* ================================================================== *)

Module RagEngine.

Import FoodSafetyKnowledge.

(** The dict that [analyze_prescription] returns and that
    [check_food_safety] reads with [.get(key, [])]. *)
Record findings : Type := {
  medications : list string;
  conditions : list string;
  allergies : list string;
  restrictions : list string
}.

Definition no_findings : findings :=
  {| medications := []; conditions := []; allergies := []; restrictions := [] |}.

Definition common_meds : list string :=
  [ "warfarin"; "coumadin"; "atorvastatin"; "lipitor"; "simvastatin"; "zocor";
    "lisinopril"; "prinivil"; "zestril"; "metformin"; "glucophage"; "amlodipine";
    "norvasc"; "metoprolol"; "lopressor"; "toprol"; "losartan"; "cozaar";
    "albuterol"; "proventil"; "ventolin"; "omeprazole"; "prilosec"; "gabapentin";
    "neurontin"; "hydrochlorothiazide"; "levothyroxine"; "synthroid"; "amoxicillin";
    "penicillin"; "aspirin"; "ibuprofen"; "acetaminophen"; "tylenol"; "advil";
    "insulin"; "prednisone"; "fluoxetine"; "prozac"; "sertraline"; "zoloft";
    "furosemide"; "lasix"; "citalopram"; "celexa"; "montelukast"; "singulair" ].

Definition non_meds : list string :=
  [ "the"; "and"; "with"; "this"; "your"; "you"; "for"; "daily"; "once";
    "twice"; "day"; "morning"; "night" ].

(** [prescri\w+\s+(\w+)] *)
Definition prescribed_pattern : Re.regex :=
  Re.seq [Re.Lit "prescri"; Re.Plus Re.is_word; Re.Plus Re.is_space;
          Re.Group 1 (Re.Plus Re.is_word)].

(** [take\s+(\w+)] *)
Definition take_pattern : Re.regex :=
  Re.seq [Re.Lit "take"; Re.Plus Re.is_space; Re.Group 1 (Re.Plus Re.is_word)].

(** [(\w+)\s+\d+\s*mg] *)
Definition dosage_pattern : Re.regex :=
  Re.seq [Re.Group 1 (Re.Plus Re.is_word); Re.Plus Re.is_space;
          Re.Plus Re.is_digit; Re.Star Re.is_space; Re.Lit "mg"].

Definition extract_medications (text : string) : list string :=
  let medications := filter (fun med => Py.str_in med text) common_meds in
  let medications := medications ++ Re.findall_group1 prescribed_pattern text in
  let medications := medications ++ Re.findall_group1 take_pattern text in
  let medications := medications ++ Re.findall_group1 dosage_pattern text in
  let filtered_meds :=
    filter (fun med => negb (Py.list_in (Py.lower med) non_meds)
                       && (2 <? String.length med)%nat)
           medications in
  Py.list_set filtered_meds.

Definition common_conditions : list string :=
  [ "diabetes"; "hypertension"; "high blood pressure"; "high cholesterol";
    "heart disease"; "asthma"; "copd"; "arthritis"; "depression"; "anxiety";
    "thyroid"; "hypothyroidism"; "hyperthyroidism"; "gerd"; "acid reflux";
    "migraine"; "allergies"; "gout"; "kidney disease"; "liver disease";
    "osteoporosis"; "cancer"; "epilepsy"; "seizures"; "parkinsons";
    "alzheimers"; "celiac"; "gluten"; "lactose intolerance"; "ibs";
    "crohns"; "colitis"; "fibromyalgia"; "lupus"; "psoriasis"; "eczema" ].

(** [(\w+(\s+\w+)?)] *)
Definition one_or_two_words : Re.regex :=
  Re.Group 1 (Re.Seq (Re.Plus Re.is_word)
                (Re.Opt (Re.Group 2 (Re.Seq (Re.Plus Re.is_space)
                                            (Re.Plus Re.is_word))))).

(** [diagnos\w+\s+with\s+(\w+(\s+\w+)?)] *)
Definition diagnosed_pattern : Re.regex :=
  Re.seq [Re.Lit "diagnos"; Re.Plus Re.is_word; Re.Plus Re.is_space;
          Re.Lit "with"; Re.Plus Re.is_space; one_or_two_words].

(** [treat\w+\s+(\w+(\s+\w+)?)] *)
Definition treat_pattern : Re.regex :=
  Re.seq [Re.Lit "treat"; Re.Plus Re.is_word; Re.Plus Re.is_space;
          one_or_two_words].

Definition extract_conditions (text : string) : list string :=
  let conditions :=
    filter (fun condition => Py.str_in condition text) common_conditions in
  let conditions := conditions ++ Re.findall_group1 diagnosed_pattern text in
  let conditions := conditions ++ Re.findall_group1 treat_pattern text in
  Py.list_set conditions.

(** [allerg\w+\s+to\s+{allergy}] *)
Definition allergy_pattern (allergy : string) : Re.regex :=
  Re.seq [Re.Lit "allerg"; Re.Plus Re.is_word; Re.Plus Re.is_space;
          Re.Lit "to"; Re.Plus Re.is_space; Re.Lit allergy].

(** [allerg\w+\s+to\s+(\w+(\s+\w+)?)] *)
Definition allergic_pattern : Re.regex :=
  Re.seq [Re.Lit "allerg"; Re.Plus Re.is_word; Re.Plus Re.is_space;
          Re.Lit "to"; Re.Plus Re.is_space; one_or_two_words].

Definition extract_allergies (text : string) : list string :=
  let common_allergies := ALLERGIES in
  let allergies :=
    filter (fun allergy =>
              Re.search (allergy_pattern allergy) text
              || Py.str_in ("allergic to " ++ allergy)%string text)
           common_allergies in
  let allergies := allergies ++ Re.findall_group1 allergic_pattern text in
  Py.list_set allergies.

(** The two lookup loops of [analyze_prescription]:
    [for x in xs: foods = lookup(x); if foods: out.extend(foods)]. *)
Definition collect (lookup : string -> list string) (xs : list string)
  : list string :=
  fold_left (fun out x =>
               let foods := lookup x in
               if Py.truthy foods then out ++ foods else out)
            xs [].

(** The body of the [try] of [analyze_prescription].  The only operation
    that can fail is the first one, [prescription_text.lower()]. *)
Definition analyze_prescription_try (prescription_text : option string)
  : Py.result findings :=
  match prescription_text with
  | None => Py.Raise (Py.AttributeError "lower")
  | Some prescription_text =>
      let text := Py.lower prescription_text in
      let medications := extract_medications text in
      let conditions := extract_conditions text in
      let allergies := extract_allergies text in
      let medication_restrictions :=
        collect get_risky_foods_for_medication medications in
      let condition_restrictions :=
        collect get_foods_to_avoid_for_condition conditions in
      let all_restrictions :=
        Py.list_set (medication_restrictions ++ condition_restrictions
                     ++ allergies) in
      Py.Ok {| medications := medications;
               conditions := conditions;
               allergies := allergies;
               restrictions := all_restrictions |}
  end.

Definition analyze_prescription (prescription_text : option string)
  : findings :=
  match analyze_prescription_try prescription_text with
  | Py.Ok r => r
  | Py.Raise _ => no_findings
  end.

(** The [food_info] dict.  [fi_ingredients] and [fi_description] are [None]
    when the key is absent; [fi_name] and [fi_source] stand for the entries
    that [check_food_safety] never reads. *)
Record food_record : Type := {
  fi_name : string;
  fi_ingredients : option (list string);
  fi_description : option string;
  fi_source : string
}.

(** [d.get(key, default)] *)
Definition get {A} (entry : option A) (default : A) : A :=
  match entry with
  | Some v => v
  | None => default
  end.

(** [food_info["ingredients"].extend(more)] seen from the dict: the list
    stored under the key grows in place. *)
Definition extend_ingredients (fi : food_record) (more : list string)
  : food_record :=
  {| fi_name := fi_name fi;
     fi_ingredients := option_map (fun l => l ++ more) (fi_ingredients fi);
     fi_description := fi_description fi;
     fi_source := fi_source fi |}.

(** The three locals that the checks update together. *)
Record tally : Type := {
  is_safe : bool;
  unsafe_ingredients : list string;
  explanation : list string
}.

Definition start : tally :=
  {| is_safe := true; unsafe_ingredients := []; explanation := [] |}.

(** [is_safe = False; unsafe_ingredients.append(item);
     explanation.append(message)] *)
Definition flag (t : tally) (item message : string) : tally :=
  {| is_safe := false;
     unsafe_ingredients := unsafe_ingredients t ++ [item];
     explanation := explanation t ++ [message] |}.

(** Lines 179-183: the food name itself. *)
Definition check_name (food_name : string) (r : findings) (t : tally) : tally :=
  if Py.list_in (Py.lower food_name) (map Py.lower (restrictions r))
  then flag t food_name
            (food_name ++ " is directly listed in your restrictions.")%string
  else t.

(** Lines 185-191: every ingredient against every restriction. *)
Definition check_ingredients (ingredients : list string) (r : findings)
  (t : tally) : tally :=
  fold_left
    (fun t ingredient =>
       fold_left
         (fun t restriction =>
            if Py.str_in (Py.lower restriction) (Py.lower ingredient)
               || Py.str_in (Py.lower ingredient) (Py.lower restriction)
            then flag t ingredient
                   (ingredient
                    ++ " may interact with your health condition or medication.")%string
            else t)
         (restrictions r) t)
    ingredients t.

(** Lines 193-200: the risky foods of every medication. *)
Definition check_medications (food_name : string) (ingredients : list string)
  (r : findings) (t : tally) : tally :=
  fold_left
    (fun t medication =>
       let risky_foods := get_risky_foods_for_medication medication in
       fold_left
         (fun t risky_food =>
            if Py.str_in (Py.lower risky_food) (Py.lower food_name)
               || existsb (fun ingredient =>
                             Py.str_in (Py.lower risky_food) (Py.lower ingredient))
                          ingredients
            then flag t risky_food
                   (risky_food ++ " may interact with your medication "
                    ++ medication ++ ".")%string
            else t)
         risky_foods t)
    (medications r) t.

(** Lines 202-207: the allergies. *)
Definition check_allergies (food_name : string) (ingredients : list string)
  (r : findings) (t : tally) : tally :=
  fold_left
    (fun t allergy =>
       if Py.str_in (Py.lower allergy) (Py.lower food_name)
          || existsb (fun ingredient =>
                        Py.str_in (Py.lower allergy) (Py.lower ingredient))
                     ingredients
       then flag t allergy (allergy ++ " is listed in your allergies.")%string
       else t)
    (allergies r) t.

(** The dict that [check_food_safety] returns.  Its ["food_info"] entry is
    the argument object itself, so [v_food_info] is that object as the call
    leaves it. *)
Record verdict : Type := {
  v_is_safe : bool;
  v_unsafe_ingredients : list string;
  v_recommendation : string;
  v_explanation : list string;
  v_food_info : option food_record
}.

Definition safe_sentence : string :=
  "This food appears to be safe for you to consume.".

Definition unsafe_sentence : string :=
  "This food may not be safe for you based on your prescription.".

Definition fault_sentence : string :=
  "Could not determine if this food is safe. Please consult with your doctor or pharmacist.".

Definition fault_explanation : string :=
  "An error occurred during analysis. Please try again or consult a healthcare professional.".

(** The body of the [try] of [check_food_safety], with the state of the
    [food_info] object when the body ends.  An argument that is [None]
    fails at the first attribute access on it: [food_info.get] on line 170,
    [food_name.lower()] and then [restrictions.get] on line 180. *)
Definition check_food_safety_try (food_name : option string)
  (food_info : option food_record) (restrictions : option findings)
  : Py.result verdict * option food_record :=
  match food_info with
  | None => (Py.Raise (Py.AttributeError "get"), None)
  | Some fi =>
      let ingredients := get (fi_ingredients fi) [] in
      let food_description := get (fi_description fi) EmptyString in
      let '(ingredients, fi) :=
        if negb (Py.truthy ingredients) && Py.truthy_str food_description
        then
          let potential_ingredients :=
            WebScraper.extract_ingredients_from_text food_description in
          (ingredients ++ potential_ingredients,
           extend_ingredients fi potential_ingredients)
        else (ingredients, fi) in
      match food_name with
      | None => (Py.Raise (Py.AttributeError "lower"), Some fi)
      | Some food_name =>
          match restrictions with
          | None => (Py.Raise (Py.AttributeError "get"), Some fi)
          | Some restrictions =>
              let t := check_name food_name restrictions start in
              let t := check_ingredients ingredients restrictions t in
              let t := check_medications food_name ingredients restrictions t in
              let t := check_allergies food_name ingredients restrictions t in
              let recommendation :=
                if is_safe t then safe_sentence else unsafe_sentence in
              let unique_explanations := Py.list_set (explanation t) in
              let unique_ingredients := Py.list_set (unsafe_ingredients t) in
              (Py.Ok {| v_is_safe := is_safe t;
                        v_unsafe_ingredients := unique_ingredients;
                        v_recommendation := recommendation;
                        v_explanation := unique_explanations;
                        v_food_info := Some fi |},
               Some fi)
          end
      end
  end.

Definition check_food_safety (food_name : option string)
  (food_info : option food_record) (restrictions : option findings) : verdict :=
  match check_food_safety_try food_name food_info restrictions with
  | (Py.Ok v, _) => v
  | (Py.Raise _, food_info) =>
      {| v_is_safe := false;
         v_unsafe_ingredients := [];
         v_recommendation := fault_sentence;
         v_explanation := [fault_explanation];
         v_food_info := food_info |}
  end.

End RagEngine.


(* ================================================================== *)
(** * Vocabulary of the statements *)
(* ================================================================== *)

Module Statements.

Import Py FoodSafetyKnowledge RagEngine.

(** The separator of [extract_description], two line feeds. *)
Definition paragraph_break : string :=
  String "010" (String "010" EmptyString).

(** What the specification asks of a lookup, written after its words: the
    foods of all the keys that match, joined. *)
Definition foods_of_all_matching_keys (t : table) (name : string)
  : list string :=
  flat_map (fun '(key, foods) => if key_matches key name then foods else [])
           t.

(** The entry a lookup stops at. *)
Definition first_matching_entry (t : table) (name : string)
  : option (string * list string) :=
  find (fun '(key, _) => key_matches key name) t.

(** Is some key of the table a proper part of another key? *)
Definition key_inside_other_key (t : table) : bool :=
  existsb (fun k => existsb (fun k' => str_in k k' && negb (String.eqb k k'))
                            (map fst t))
          (map fst t).

(** A string that [lower] leaves alone. *)
Definition lowercase (s : string) : Prop := lower s = s.

(** Are all the foods of the table in lower case? *)
Definition table_lowercase (t : table) : bool :=
  forallb (fun kv => forallb (fun f => String.eqb (lower f) f) (snd kv)) t.

(** While the flag is still set nothing has been recorded. *)
Definition settled (t : tally) : Prop :=
  is_safe t = true -> unsafe_ingredients t = [] /\ explanation t = [].

(** [t'] keeps what [t] has recorded, and a cleared flag stays cleared. *)
Definition keeps (t t' : tally) : Prop :=
  (is_safe t = false -> is_safe t' = false)
  /\ incl (unsafe_ingredients t) (unsafe_ingredients t')
  /\ incl (explanation t) (explanation t').

(** The tally after the four checks, as [check_food_safety_try] chains
    them. *)
Definition checks (food_name : string) (ingredients : list string)
  (r : findings) : tally :=
  check_allergies food_name ingredients r
    (check_medications food_name ingredients r
       (check_ingredients ingredients r
          (check_name food_name r start))).

(** The ingredient list the checks run on, and the [food_info] object after
    lines 169-177. *)
Definition ingredients_used (fi : food_record) : list string :=
  let ingredients := get (fi_ingredients fi) [] in
  let food_description := get (fi_description fi) EmptyString in
  if negb (truthy ingredients) && truthy_str food_description
  then ingredients ++ WebScraper.extract_ingredients_from_text food_description
  else ingredients.

Definition food_info_left (fi : food_record) : food_record :=
  let ingredients := get (fi_ingredients fi) [] in
  let food_description := get (fi_description fi) EmptyString in
  if negb (truthy ingredients) && truthy_str food_description
  then extend_ingredients fi
         (WebScraper.extract_ingredients_from_text food_description)
  else fi.

End Statements.

(* ================================================================== *)
(** * Vocabulary of the further statements *)
(* ================================================================== *)

Module Tests.

Import Py FoodSafetyKnowledge RagEngine.

(** The test of line 188, a restriction against an ingredient: either one
    inside the other, ignoring case. *)
Definition term_matches (restriction ingredient : string) : bool :=
  str_in (lower restriction) (lower ingredient)
  || str_in (lower ingredient) (lower restriction).

(** The test of lines 197 and 204: the term occurs, ignoring case, in the
    food name or in one of the ingredients. *)
Definition found_in (term food_name : string) (ingredients : list string)
  : bool :=
  str_in (lower term) (lower food_name)
  || existsb (fun ingredient => str_in (lower term) (lower ingredient))
             ingredients.

(** The tally is flagged and holds the item and the message. *)
Definition recorded (item message : string) (t : tally) : Prop :=
  is_safe t = false
  /\ In item (unsafe_ingredients t)
  /\ In message (explanation t).

(** A flagged tally has recorded something. *)
Definition founded (t : tally) : Prop :=
  is_safe t = false -> unsafe_ingredients t <> [] /\ explanation t <> [].

(** Why an item may be among the offending ones: it is the food name and
    the name is a restriction; it is an ingredient that matches a
    restriction; it is a risky food of a listed medication found in the
    food; it is a listed allergy found in the food. *)
Definition offends (food_name : string) (ingredients : list string)
  (r : findings) (x : string) : Prop :=
  (x = food_name /\ In (lower food_name) (map lower (restrictions r)))
  \/ (In x ingredients
      /\ exists restriction,
           In restriction (restrictions r) /\ term_matches restriction x = true)
  \/ (exists medication,
        In medication (medications r)
        /\ In x (get_risky_foods_for_medication medication)
        /\ found_in x food_name ingredients = true)
  \/ (In x (allergies r) /\ found_in x food_name ingredients = true).

End Tests.

(* ------------------------------------------------------------------ *)
(** app.py: the test on the name of the uploaded file *)

Module App.

Import Py.

(** The set literal [ALLOWED_EXTENSIONS]. *)
Definition ALLOWED_EXTENSIONS : list string := ["pdf"; "png"; "jpg"; "jpeg"].

(** The text before and the text after the last dot, [None] without a
    dot. *)
Fixpoint split_at_last_dot (s : string) : option (string * string) :=
  match s with
  | EmptyString => None
  | String c s' =>
      match split_at_last_dot s' with
      | Some (a, b) => Some (String c a, b)
      | None => if Ascii.eqb c "." then Some (EmptyString, s') else None
      end
  end.

(** [s.rsplit('.', 1)] *)
Definition rsplit_dot_1 (s : string) : list string :=
  match split_at_last_dot s with
  | Some (a, b) => [a; b]
  | None => [s]
  end.

(** [allowed_file]; [None] stands for the [IndexError] of the subscript
    [[1]]. *)
Definition allowed_file (filename : string) : option bool :=
  if str_in "." filename
  then match nth_error (rsplit_dot_1 filename) 1 with
       | Some ext => Some (list_in (lower ext) ALLOWED_EXTENSIONS)
       | None => None
       end
  else Some false.

End App.

Module Whitespace.

Import Py.

(** A string that is empty or begins with a character that is no space. *)
Definition no_space_ahead (s : string) : Prop :=
  match s with
  | EmptyString => True
  | String c _ => isspace c = false
  end.

(** Does the string end, or begin, with a line feed? *)
Fixpoint ends_with_nl (s : string) : bool :=
  match s with
  | EmptyString => false
  | String c EmptyString => Ascii.eqb c "010"
  | String _ s' => ends_with_nl s'
  end.

Definition starts_with_nl (s : string) : bool :=
  match s with
  | EmptyString => false
  | String c _ => Ascii.eqb c "010"
  end.

End Whitespace.

Module ReLang.

Import Re.

(** The words a pattern stands for. *)
Inductive lang : regex -> string -> Prop :=
| lang_Eps : lang Eps EmptyString
| lang_Chr (p : charset) (c : ascii) :
    p c = true -> lang (Chr p) (String c EmptyString)
| lang_Seq (r1 r2 : regex) (w1 w2 : string) :
    lang r1 w1 -> lang r2 w2 -> lang (Seq r1 r2) (w1 ++ w2)%string
| lang_Alt_l (r1 r2 : regex) (w : string) : lang r1 w -> lang (Alt r1 r2) w
| lang_Alt_r (r1 r2 : regex) (w : string) : lang r2 w -> lang (Alt r1 r2) w
| lang_Star_nil (p : charset) : lang (Star p) EmptyString
| lang_Star_cons (p : charset) (c : ascii) (w : string) :
    p c = true -> lang (Star p) w -> lang (Star p) (String c w)
| lang_Opt_some (r : regex) (w : string) : lang r w -> lang (Opt r) w
| lang_Opt_none (r : regex) : lang (Opt r) EmptyString
| lang_Group (i : nat) (r : regex) (w : string) :
    lang r w -> lang (Group i r) w.

End ReLang.

(* ================================================================== *)
(** * Facts about the string primitives *)
(* ================================================================== *)

Section StringFacts.

Import Py.

Lemma append_nil_r (s : string) : (s ++ "")%string = s.
Proof. induction s as [|c s IH]; simpl; [reflexivity | now rewrite IH]. Qed.

Lemma append_assoc (a b c : string) :
  (a ++ (b ++ c))%string = ((a ++ b) ++ c)%string.
Proof. induction a as [|x a IH]; simpl; [reflexivity | now rewrite IH]. Qed.

Lemma length_append (a b : string) :
  String.length (a ++ b) = String.length a + String.length b.
Proof. induction a as [|x a IH]; simpl; [reflexivity | now rewrite IH]. Qed.

Lemma length_zero (s : string) : String.length s = 0 -> s = "".
Proof. destruct s; simpl; [reflexivity | discriminate]. Qed.

Lemma lower_ascii_idem (c : ascii) :
  lower_ascii (lower_ascii c) = lower_ascii c.
Proof. destruct c as [[] [] [] [] [] [] [] []]; reflexivity. Qed.

Lemma lower_idem (s : string) : lower (lower s) = lower s.
Proof.
  induction s as [|c s IH]; simpl; [reflexivity|].
  now rewrite lower_ascii_idem, IH.
Qed.

Lemma lower_append (a b : string) :
  lower (a ++ b) = (lower a ++ lower b)%string.
Proof. induction a as [|x a IH]; simpl; [reflexivity | now rewrite IH]. Qed.

Lemma lower_substring (s : string) :
  forall a n, lower (String.substring a n s) = String.substring a n (lower s).
Proof.
  induction s as [|c s IH]; intros a n.
  - destruct a, n; reflexivity.
  - destruct a as [|a]; simpl.
    + destruct n as [|n]; simpl; [reflexivity | now rewrite IH].
    + apply IH.
Qed.

Lemma startswith_spec (s t : string) :
  startswith s t = true <-> exists b, t = (s ++ b)%string.
Proof.
  revert t; induction s as [|x s IH]; intros t; simpl.
  - split; [exists t; reflexivity | reflexivity].
  - destruct t as [|y t].
    + split; [discriminate | intros [b H]; discriminate].
    + rewrite andb_true_iff, IH. split.
      * intros [Hxy [b ->]]. apply Ascii.eqb_eq in Hxy. subst y. now exists b.
      * intros [b H]. injection H as -> ->. split.
        -- apply Ascii.eqb_refl.
        -- now exists b.
Qed.

Lemma str_in_spec (s t : string) :
  str_in s t = true <-> exists a b, t = (a ++ (s ++ b))%string.
Proof.
  induction t as [|y t IH].
  - simpl. rewrite orb_false_r, startswith_spec. split.
    + intros [b H]. now exists "", b.
    + intros [a [b H]]. destruct a; [now exists b | discriminate].
  - cbn [str_in]. rewrite orb_true_iff, IH, startswith_spec. split.
    + intros [[b H] | [a [b H]]].
      * now exists "", b.
      * exists (String y a), b. simpl. now rewrite H.
    + intros [a [b H]]. destruct a as [|x a].
      * left. now exists b.
      * right. simpl in H. injection H as _ H. now exists a, b.
Qed.

Lemma str_in_refl (s : string) : str_in s s = true.
Proof. apply str_in_spec. exists "", "". simpl. now rewrite append_nil_r. Qed.

Lemma str_in_trans (a b c : string) :
  str_in a b = true -> str_in b c = true -> str_in a c = true.
Proof.
  rewrite !str_in_spec. intros [x [y ->]] [u [v ->]].
  exists (u ++ x)%string, (y ++ v)%string.
  now rewrite <- !append_assoc.
Qed.

Lemma str_in_length (a b : string) :
  str_in a b = true -> String.length a <= String.length b.
Proof.
  rewrite str_in_spec. intros [x [y ->]]. rewrite !length_append. lia.
Qed.

Lemma str_in_antisym (a b : string) :
  str_in a b = true -> str_in b a = true -> a = b.
Proof.
  intros Hab Hba. apply str_in_length in Hba.
  apply str_in_spec in Hab. destruct Hab as [x [y ->]].
  rewrite !length_append in Hba.
  assert (x = "") as -> by (apply length_zero; lia).
  assert (y = "") as -> by (apply length_zero; lia).
  simpl. now rewrite append_nil_r.
Qed.

Lemma str_in_lower (a b : string) :
  str_in a b = true -> str_in (lower a) (lower b) = true.
Proof.
  rewrite !str_in_spec. intros [x [y ->]].
  exists (lower x), (lower y). now rewrite !lower_append.
Qed.

Lemma list_in_spec (x : string) (xs : list string) :
  list_in x xs = true <-> In x xs.
Proof.
  unfold list_in. rewrite existsb_exists. split.
  - intros [y [Hy Hxy]]. apply String.eqb_eq in Hxy. now subst.
  - intros H. exists x. split; [assumption | apply String.eqb_refl].
Qed.

Lemma list_set_In (xs : list string) (x : string) :
  In x (list_set xs) <-> In x xs.
Proof. apply nodup_In. Qed.

Lemma list_set_NoDup (xs : list string) : NoDup (list_set xs).
Proof. apply NoDup_nodup. Qed.

End StringFacts.

(* ================================================================== *)
(** * The knowledge-base lookups *)
(* ================================================================== *)

Module KnowledgeBaseFacts.

Import Py FoodSafetyKnowledge Statements.

Lemma first_match_find (t : table) (name : string) :
  first_match t name =
  match first_matching_entry t name with
  | Some (_, foods) => foods
  | None => []
  end.
Proof.
  unfold first_matching_entry.
  induction t as [|[key foods] t IH]; simpl; [reflexivity|].
  destruct (key_matches key name); [reflexivity | exact IH].
Qed.

Lemma first_match_incl (t : table) (name : string) :
  incl (first_match t name) (foods_of_all_matching_keys t name).
Proof.
  induction t as [|[key foods] t IH]; simpl; intros x Hx; [assumption|].
  destruct (key_matches key name); apply in_or_app; [left | right]; auto.
Qed.

Lemma first_match_none (t : table) (name : string) :
  (forall key foods, In (key, foods) t -> key_matches key name = false) ->
  first_match t name = [] /\ foods_of_all_matching_keys t name = [].
Proof.
  induction t as [|[key foods] t IH]; simpl; intros H; [split; reflexivity|].
  rewrite (H key foods (or_introl eq_refl)). simpl. apply IH.
  intros k f Hin. apply (H k f). now right.
Qed.

(** Two queries that the keys of the table cannot tell apart get the same
    answer. *)
Lemma first_match_ext (t : table) (n1 n2 : string) :
  (forall key, In key (map fst t) -> key_matches key n1 = key_matches key n2) ->
  first_match t n1 = first_match t n2.
Proof.
  induction t as [|[key foods] t IH]; simpl; intros H; [reflexivity|].
  rewrite (H key (or_introl eq_refl)).
  destruct (key_matches key n2); [reflexivity|].
  apply IH. intros k Hk. apply H. now right.
Qed.

(** A query that some key matches is answered with the foods of an entry. *)
Lemma first_match_some (t : table) (name key : string) :
  In key (map fst t) -> key_matches key name = true ->
  exists k foods, In (k, foods) t /\ first_match t name = foods.
Proof.
  induction t as [|[k0 f0] t IH]; simpl; intros Hin Hm; [contradiction|].
  destruct (key_matches k0 name) eqn:E.
  - exists k0, f0. split; [now left | reflexivity].
  - destruct Hin as [-> | Hin]; [congruence|].
    destruct (IH Hin Hm) as [k [f [Hk Hf]]].
    exists k, f. split; [now right | assumption].
Qed.

Lemma INTERACTIONS_keys_apart (k k' : string) :
  In k (map fst INTERACTIONS) -> In k' (map fst INTERACTIONS) ->
  str_in k k' = true -> k = k'.
Proof.
  intros Hk Hk' Hin.
  destruct (String.eqb k k') eqn:E; [now apply String.eqb_eq|].
  assert (key_inside_other_key INTERACTIONS = true) as Habs.
  { unfold key_inside_other_key. apply existsb_exists. exists k. split; [assumption|].
    apply existsb_exists. exists k'. split; [assumption|].
    now rewrite Hin, E. }
  vm_compute in Habs. discriminate.
Qed.

Lemma INTERACTIONS_foods_nonempty (k : string) (foods : list string) :
  In (k, foods) INTERACTIONS -> foods <> [].
Proof.
  intros H.
  assert (forallb (fun kv => truthy (snd kv)) INTERACTIONS = true) as Hall
    by reflexivity.
  rewrite forallb_forall in Hall. specialize (Hall _ H). simpl in Hall.
  now destruct foods.
Qed.

End KnowledgeBaseFacts.

Section KnowledgeBaseProperties.

Import Py FoodSafetyKnowledge Statements KnowledgeBaseFacts.

(** C1 (as the code has it).  For every medication name and every condition
    name, each lookup returns the food list of the FIRST key of its table,
    in the order the table is written, that matches the lower-cased query
    (key inside query or query inside key), and the empty list when no key
    matches.  What is returned always lies within the foods of all matching
    keys.  The lookups are total: nothing is raised. *)
Theorem lookups_return_first_matching_key (name : string) :
  get_risky_foods_for_medication name
  = match first_matching_entry INTERACTIONS (lower name) with
    | Some (_, foods) => foods
    | None => []
    end
  /\ get_foods_to_avoid_for_condition name
     = match first_matching_entry CONDITIONS (lower name) with
       | Some (_, foods) => foods
       | None => []
       end
  /\ incl (get_risky_foods_for_medication name)
          (foods_of_all_matching_keys INTERACTIONS (lower name))
  /\ incl (get_foods_to_avoid_for_condition name)
          (foods_of_all_matching_keys CONDITIONS (lower name)).
Proof.
  unfold get_risky_foods_for_medication, get_foods_to_avoid_for_condition.
  repeat split;
    first [apply first_match_find | apply first_match_incl].
Qed.

(** C1, counterexample.  The name "warfarin and statins" matches the keys
    "warfarin" and "statins"; "grapefruit juice" is among the foods of the
    second, hence in the union, but the lookup stops at the first key and
    does not return it. *)
Lemma lookup_misses_second_key :
  In "grapefruit juice"
     (foods_of_all_matching_keys INTERACTIONS (lower "warfarin and statins"))
  /\ ~ In "grapefruit juice"
          (get_risky_foods_for_medication "warfarin and statins").
Proof.
  split.
  - vm_compute. tauto.
  - vm_compute. intuition discriminate.
Qed.

(** C2 (as the code has it).  Let [m1] be a substring of [m2].  If [m1]
    contains a key of the medication table (ignoring case) and that key is
    the only one that [m2] matches, then the lookup returns the same list
    for both names, and that list is not empty. *)
Theorem substring_names_same_key_same_foods (m1 m2 k : string) :
  str_in m1 m2 = true ->
  In k (map fst INTERACTIONS) ->
  str_in k (lower m1) = true ->
  (forall k', In k' (map fst INTERACTIONS) ->
              key_matches k' (lower m2) = true -> k' = k) ->
  get_risky_foods_for_medication m1 = get_risky_foods_for_medication m2
  /\ get_risky_foods_for_medication m1 <> [].
Proof.
  intros H12 Hk Hk1 Honly.
  apply str_in_lower in H12.
  assert (Hk2 : str_in k (lower m2) = true)
    by exact (str_in_trans _ _ _ Hk1 H12).
  assert (Hm1 : key_matches k (lower m1) = true)
    by (unfold key_matches; now rewrite Hk1).
  assert (Hm2 : key_matches k (lower m2) = true)
    by (unfold key_matches; now rewrite Hk2).
  assert (Honly1 : forall k', In k' (map fst INTERACTIONS) ->
                              key_matches k' (lower m1) = true -> k' = k).
  { intros k' Hk' Hm. unfold key_matches in Hm. apply orb_true_iff in Hm.
    destruct Hm as [Hin | Hin].
    - apply Honly; [assumption|]. unfold key_matches.
      now rewrite (str_in_trans _ _ _ Hin H12).
    - symmetry. apply INTERACTIONS_keys_apart; try assumption.
      exact (str_in_trans _ _ _ Hk1 Hin). }
  unfold get_risky_foods_for_medication. split.
  - apply first_match_ext. intros k' Hk'.
    destruct (key_matches k' (lower m1)) eqn:E1;
      destruct (key_matches k' (lower m2)) eqn:E2; try reflexivity.
    + rewrite (Honly1 k' Hk' E1) in E2. congruence.
    + rewrite (Honly k' Hk' E2) in E1. congruence.
  - destruct (first_match_some INTERACTIONS (lower m1) k Hk Hm1)
      as [k0 [foods [Hin ->]]].
    eapply INTERACTIONS_foods_nonempty; eassumption.
Qed.

Lemma substring_names_same_key_same_foods_witness :
  get_risky_foods_for_medication "Statins"
  = get_risky_foods_for_medication "Statins 20mg tablets"
  /\ get_risky_foods_for_medication "Statins" <> [].
Proof.
  apply (substring_names_same_key_same_foods
           "Statins" "Statins 20mg tablets" "statins").
  - reflexivity.
  - simpl. tauto.
  - reflexivity.
  - intros k' Hk' Hm. simpl in Hk'.
    repeat destruct Hk' as [Hk' | Hk']; subst; try reflexivity;
      try (vm_compute in Hm; discriminate Hm); contradiction.
Defined.

(** C2, counterexample.  "statins" is a substring of "warfarin statins" and
    the two names get different lists; "xyz" is a substring of "xyzw" and
    both get the empty list. *)
Lemma substring_names_may_disagree :
  (str_in "statins" "warfarin statins" = true
   /\ get_risky_foods_for_medication "statins"
      <> get_risky_foods_for_medication "warfarin statins")
  /\ (str_in "xyz" "xyzw" = true
      /\ get_risky_foods_for_medication "xyz" = []
      /\ get_risky_foods_for_medication "xyzw" = []).
Proof.
  repeat split; try reflexivity.
  vm_compute. discriminate.
Qed.

End KnowledgeBaseProperties.

(* ================================================================== *)
(** * The safety evaluator *)
(* ================================================================== *)

Module EvaluatorFacts.

Import Py RagEngine Statements.

(** An invariant of a Python [for] loop that updates one local. *)
Lemma fold_left_invariant {A B : Type} (P : A -> Prop) (f : A -> B -> A) :
  (forall a b, P a -> P (f a b)) ->
  forall l a, P a -> P (fold_left f l a).
Proof.
  intros Hstep l. induction l as [|b l IH]; simpl; intros a Ha; [assumption|].
  apply IH, Hstep, Ha.
Qed.

Lemma keeps_refl (t : tally) : keeps t t.
Proof. repeat split; auto using incl_refl. Qed.

Lemma keeps_trans (a b c : tally) : keeps a b -> keeps b c -> keeps a c.
Proof.
  intros [H1 [H2 H3]] [K1 [K2 K3]]. repeat split; eauto using incl_tran.
Qed.

Lemma keeps_flag (t : tally) (item message : string) :
  keeps t (flag t item message).
Proof. repeat split; simpl; auto using incl_appl, incl_refl. Qed.

Lemma settled_start : settled start.
Proof. intros _. split; reflexivity. Qed.

Lemma settled_flag (t : tally) (item message : string) :
  settled (flag t item message).
Proof. intros H. discriminate H. Qed.

Create HintDb tally.

#[local] Hint Resolve keeps_refl keeps_flag settled_flag : tally.

(** Every check either leaves the tally alone or flags it, so both
    invariants pass through each of the four checks. *)
Ltac through_loops :=
  repeat first
    [ progress intros
    | apply fold_left_invariant
    | match goal with
      | |- context [if ?c then _ else _] => destruct c
      end
    | solve [eauto using keeps_trans with tally] ].

Lemma check_name_settled food_name r t :
  settled t -> settled (check_name food_name r t).
Proof. unfold check_name. through_loops. Qed.

Lemma check_ingredients_settled ingredients r t :
  settled t -> settled (check_ingredients ingredients r t).
Proof. unfold check_ingredients. through_loops. Qed.

Lemma check_medications_settled food_name ingredients r t :
  settled t -> settled (check_medications food_name ingredients r t).
Proof. unfold check_medications. through_loops. Qed.

Lemma check_allergies_settled food_name ingredients r t :
  settled t -> settled (check_allergies food_name ingredients r t).
Proof. unfold check_allergies. through_loops. Qed.

Lemma check_ingredients_keeps ingredients r t :
  keeps t (check_ingredients ingredients r t).
Proof.
  unfold check_ingredients.
  apply (fold_left_invariant (keeps t)); [|apply keeps_refl].
  intros a b Ha. apply (fold_left_invariant (keeps t)); [|assumption].
  intros a' b' Ha'. destruct (_ || _); [|assumption].
  eapply keeps_trans; [eassumption | apply keeps_flag].
Qed.

Lemma check_medications_keeps food_name ingredients r t :
  keeps t (check_medications food_name ingredients r t).
Proof.
  unfold check_medications.
  apply (fold_left_invariant (keeps t)); [|apply keeps_refl].
  intros a b Ha. apply (fold_left_invariant (keeps t)); [|assumption].
  intros a' b' Ha'. destruct (_ || _); [|assumption].
  eapply keeps_trans; [eassumption | apply keeps_flag].
Qed.

Lemma check_allergies_keeps food_name ingredients r t :
  keeps t (check_allergies food_name ingredients r t).
Proof.
  unfold check_allergies.
  apply (fold_left_invariant (keeps t)); [|apply keeps_refl].
  intros a b Ha. destruct (_ || _); [|assumption].
  eapply keeps_trans; [eassumption | apply keeps_flag].
Qed.

Lemma checks_settled food_name ingredients r :
  settled (checks food_name ingredients r).
Proof.
  unfold checks.
  apply check_allergies_settled, check_medications_settled,
        check_ingredients_settled, check_name_settled, settled_start.
Qed.

Lemma checks_keep_name food_name ingredients r :
  keeps (check_name food_name r start) (checks food_name ingredients r).
Proof.
  unfold checks.
  eapply keeps_trans; [|apply check_allergies_keeps].
  eapply keeps_trans; [|apply check_medications_keeps].
  apply check_ingredients_keeps.
Qed.

(** The normal path of [check_food_safety], unfolded once and for all. *)
Lemma check_food_safety_normal food_name fi r :
  check_food_safety_try (Some food_name) (Some fi) (Some r)
  = (Ok {| v_is_safe := is_safe (checks food_name (ingredients_used fi) r);
           v_unsafe_ingredients :=
             list_set (unsafe_ingredients (checks food_name (ingredients_used fi) r));
           v_recommendation :=
             if is_safe (checks food_name (ingredients_used fi) r)
             then safe_sentence else unsafe_sentence;
           v_explanation :=
             list_set (explanation (checks food_name (ingredients_used fi) r));
           v_food_info := Some (food_info_left fi) |},
     Some (food_info_left fi)).
Proof.
  unfold check_food_safety_try, ingredients_used, food_info_left, checks.
  destruct (negb _ && _); reflexivity.
Qed.

End EvaluatorFacts.

Section EvaluatorProperties.

Import Py RagEngine Statements EvaluatorFacts.

(** C3 (as the code has it).  For every food name, food record and
    findings: if the food name EQUALS, ignoring case, some term of
    [findings.restrictions], the verdict is marked unsafe, the food name is
    among the offending items and the sentence
    "<food_name> is directly listed in your restrictions." is among the
    explanations. *)
Theorem listed_food_name_is_unsafe (food_name : string) (fi : food_record)
  (r : findings) :
  In (lower food_name) (map lower (restrictions r)) ->
  let v := check_food_safety (Some food_name) (Some fi) (Some r) in
  v_is_safe v = false
  /\ In food_name (v_unsafe_ingredients v)
  /\ In (food_name ++ " is directly listed in your restrictions.")%string
        (v_explanation v).
Proof.
  intros Hin. unfold check_food_safety.
  rewrite check_food_safety_normal. cbn [v_is_safe v_unsafe_ingredients v_explanation].
  destruct (checks_keep_name food_name (ingredients_used fi) r) as [Hs [Hu He]].
  revert Hs Hu He. unfold check_name.
  apply list_in_spec in Hin. rewrite Hin. simpl. intros Hs Hu He.
  repeat split.
  - now apply Hs.
  - apply list_set_In, Hu. now left.
  - apply list_set_In, He. now left.
Qed.

Lemma listed_food_name_is_unsafe_witness :
  let v := check_food_safety
             (Some "Honey")
             (Some {| fi_name := "Honey"; fi_ingredients := Some [];
                      fi_description := Some ""; fi_source := "general" |})
             (Some {| medications := []; conditions := ["diabetes"];
                      allergies := [];
                      restrictions := ["sugar"; "high carbs"; "honey"; "syrup"] |}) in
  v_is_safe v = false
  /\ In "Honey" (v_unsafe_ingredients v)
  /\ In "Honey is directly listed in your restrictions." (v_explanation v).
Proof.
  apply (listed_food_name_is_unsafe "Honey").
  simpl. tauto.
Defined.

(** C3, counterexample.  The restriction term "syrup" is contained in the
    food name "maple syrup", so the two match under bidirectional substring
    containment; the food has no ingredients and no description, and the
    verdict is safe. *)
Lemma contained_restriction_is_not_caught :
  let r := {| medications := []; conditions := ["diabetes"]; allergies := [];
              restrictions := ["sugar"; "high carbs"; "honey"; "syrup"] |} in
  let fi := {| fi_name := "maple syrup"; fi_ingredients := Some [];
               fi_description := Some ""; fi_source := "general" |} in
  In "syrup" (restrictions r)
  /\ str_in (lower "syrup") (lower "maple syrup") = true
  /\ v_is_safe (check_food_safety (Some "maple syrup") (Some fi) (Some r)) = true
  /\ v_unsafe_ingredients
       (check_food_safety (Some "maple syrup") (Some fi) (Some r)) = [].
Proof.
  simpl. repeat split; try reflexivity. tauto.
Qed.

(** C10.  On the normal path of [check_food_safety] (the [try] body ends
    without raising), a verdict that is safe has no offending item, no
    explanation and the recommendation "This food appears to be safe for
    you to consume."; a verdict that is not safe has the recommendation
    "This food may not be safe for you based on your prescription.". *)
Theorem normal_verdict_is_consistent (food_name : option string)
  (food_info : option food_record) (restrictions : option findings)
  (v : verdict) (left : option food_record) :
  check_food_safety_try food_name food_info restrictions = (Ok v, left) ->
  check_food_safety food_name food_info restrictions = v
  /\ (v_is_safe v = true ->
      v_unsafe_ingredients v = [] /\ v_explanation v = []
      /\ v_recommendation v
         = "This food appears to be safe for you to consume.")
  /\ (v_is_safe v = false ->
      v_recommendation v
      = "This food may not be safe for you based on your prescription.").
Proof.
  intros H. unfold check_food_safety. rewrite H. split; [reflexivity|].
  destruct food_info as [fi|]; [|discriminate H].
  destruct food_name as [name|];
    [|unfold check_food_safety_try in H;
      destruct (negb _ && _); discriminate H].
  destruct restrictions as [r|];
    [|unfold check_food_safety_try in H;
      destruct (negb _ && _); discriminate H].
  rewrite check_food_safety_normal in H. injection H as <- _.
  cbn [v_is_safe v_unsafe_ingredients v_explanation v_recommendation].
  pose proof (checks_settled name (ingredients_used fi) r) as Hs.
  split; intros Hsafe.
  - destruct (Hs Hsafe) as [-> ->]. rewrite Hsafe. repeat split; reflexivity.
  - now rewrite Hsafe.
Qed.

Lemma normal_verdict_is_consistent_witness :
  let v := check_food_safety
             (Some "apple")
             (Some {| fi_name := "apple"; fi_ingredients := Some ["apple"; "water"];
                      fi_description := Some ""; fi_source := "general" |})
             (Some no_findings) in
  v_is_safe v = true
  /\ v_unsafe_ingredients v = [] /\ v_explanation v = []
  /\ v_recommendation v = "This food appears to be safe for you to consume.".
Proof.
  destruct (normal_verdict_is_consistent
              (Some "apple")
              (Some {| fi_name := "apple"; fi_ingredients := Some ["apple"; "water"];
                       fi_description := Some ""; fi_source := "general" |})
              (Some no_findings) _ _ eq_refl) as [Hv [Hsafe _]].
  split; [reflexivity|].
  apply Hsafe. reflexivity.
Defined.

End EvaluatorProperties.

Module MinerFacts.

Import Py FoodSafetyKnowledge RagEngine Statements.

Lemma first_match_In (t : table) (name f : string) :
  In f (first_match t name) ->
  exists key foods, In (key, foods) t /\ In f foods.
Proof.
  induction t as [|[key foods] t IH]; simpl; [contradiction|].
  destruct (key_matches key name); intros H.
  - exists key, foods. split; [now left | assumption].
  - destruct (IH H) as [k [fs [Hk Hf]]]. exists k, fs. split; [now right | assumption].
Qed.

Lemma table_lowercase_spec (t : table) (name f : string) :
  table_lowercase t = true -> In f (first_match t name) -> lowercase f.
Proof.
  intros Ht Hf. destruct (first_match_In _ _ _ Hf) as [k [foods [Hk Hin]]].
  unfold table_lowercase in Ht. rewrite forallb_forall in Ht.
  specialize (Ht _ Hk). simpl in Ht. rewrite forallb_forall in Ht.
  now apply String.eqb_eq, Ht.
Qed.

Lemma collect_In (lookup : string -> list string) (xs : list string) (f : string) :
  In f (collect lookup xs) -> exists x, In x xs /\ In f (lookup x).
Proof.
  unfold collect.
  assert (forall out, In f (fold_left
             (fun out x => let foods := lookup x in
                           if truthy foods then out ++ foods else out) xs out) ->
           In f out \/ exists x, In x xs /\ In f (lookup x)) as H.
  { induction xs as [|x xs IH]; simpl; intros out Hf; [now left|].
    destruct (IH _ Hf) as [Hout | [y [Hy Hfy]]].
    - destruct (truthy (lookup x)); [|now left].
      apply in_app_or in Hout. destruct Hout as [Hout | Hout]; [now left|].
      right. exists x. split; [now left | assumption].
    - right. exists y. split; [now right | assumption]. }
  intros Hf. destruct (H [] Hf) as [[] | Hex]. exact Hex.
Qed.

Lemma group_lowercase (text : string) (m : Re.match_obj) (i : nat) :
  lowercase text -> lowercase (Re.group text m i).
Proof.
  unfold lowercase, Re.group. intros Ht.
  destruct (Re.span_of i (snd m)) as [[a b]|]; [|reflexivity].
  now rewrite lower_substring, Ht.
Qed.

Lemma findall_group1_lowercase (r : Re.regex) (text x : string) :
  lowercase text -> In x (Re.findall_group1 r text) -> lowercase x.
Proof.
  unfold Re.findall_group1. intros Ht Hx. apply in_map_iff in Hx.
  destruct Hx as [m [<- _]]. now apply group_lowercase.
Qed.

Lemma extract_allergies_lowercase (text x : string) :
  lowercase text -> In x (extract_allergies text) -> lowercase x.
Proof.
  unfold extract_allergies. intros Ht Hx.
  apply (proj1 (list_set_In _ _)), in_app_or in Hx. destruct Hx as [Hx | Hx].
  - apply filter_In in Hx. destruct Hx as [Hx _].
    assert (forallb (fun a => String.eqb (lower a) a) ALLERGIES = true) as Hall
      by reflexivity.
    rewrite forallb_forall in Hall. now apply String.eqb_eq, Hall.
  - eapply findall_group1_lowercase; eassumption.
Qed.

(** Every restriction term that [analyze_prescription] returns is in lower
    case: it is a food of the knowledge base or a piece of the lower-cased
    text. *)
Lemma restrictions_lowercase (text : option string) (x : string) :
  In x (restrictions (analyze_prescription text)) -> lowercase x.
Proof.
  destruct text as [text|]; simpl; [|contradiction].
  intros Hx. apply (proj1 (list_set_In _ _)) in Hx.
  apply in_app_or in Hx. destruct Hx as [Hx | Hx].
  { apply collect_In in Hx. destruct Hx as [m [_ Hx]].
    eapply (table_lowercase_spec INTERACTIONS); [reflexivity | exact Hx]. }
  apply in_app_or in Hx. destruct Hx as [Hx | Hx].
  { apply collect_In in Hx. destruct Hx as [m [_ Hx]].
    eapply (table_lowercase_spec CONDITIONS); [reflexivity | exact Hx]. }
  eapply extract_allergies_lowercase; [|exact Hx].
  apply lower_idem.
Qed.

Lemma map_lower_lowercase (l : list string) :
  (forall x, In x l -> lowercase x) -> map lower l = l.
Proof.
  intros H. rewrite <- (map_id l) at 2. apply map_ext_in. exact H.
Qed.

End MinerFacts.

Section DeduplicationProperties.

Import Py RagEngine Statements EvaluatorFacts MinerFacts.

(** C4 (as the code has it).  Every collection is passed through [set], so
    no returned collection holds the same string twice.  The restriction
    set of [analyze_prescription] is made of lower-case terms only, hence
    it holds no two terms that are equal ignoring case either; for the
    offending items and the explanations of [check_food_safety] only the
    exact statement holds. *)
Theorem collections_hold_no_string_twice (text : option string)
  (food_name : option string) (food_info : option food_record)
  (r : option findings) :
  NoDup (restrictions (analyze_prescription text))
  /\ NoDup (map lower (restrictions (analyze_prescription text)))
  /\ NoDup (v_unsafe_ingredients (check_food_safety food_name food_info r))
  /\ NoDup (v_explanation (check_food_safety food_name food_info r)).
Proof.
  assert (H1 : NoDup (restrictions (analyze_prescription text))).
  { destruct text; simpl; [apply list_set_NoDup | constructor]. }
  split; [exact H1|]. split.
  { rewrite map_lower_lowercase; [exact H1|].
    intros x. apply restrictions_lowercase. }
  unfold check_food_safety, check_food_safety_try.
  destruct food_info as [fi|]; [|simpl; repeat constructor; auto].
  destruct (negb _ && _);
    destruct food_name, r; simpl;
    repeat split; try apply list_set_NoDup; repeat constructor; auto.
Qed.

(** C4, counterexample.  For the food "Milk" with the ingredient "milk" and
    the restriction "milk", the offending items are "Milk" and "milk": two
    entries that are equal ignoring case. *)
Lemma offending_items_differ_in_case_only :
  let v := check_food_safety
             (Some "Milk")
             (Some {| fi_name := "Milk"; fi_ingredients := Some ["milk"];
                      fi_description := Some ""; fi_source := "general" |})
             (Some {| medications := []; conditions := []; allergies := [];
                      restrictions := ["milk"] |}) in
  In "Milk" (v_unsafe_ingredients v)
  /\ In "milk" (v_unsafe_ingredients v)
  /\ lower "Milk" = lower "milk"
  /\ ~ NoDup (map lower (v_unsafe_ingredients v)).
Proof.
  vm_compute. repeat split; try tauto.
  intros H. inversion H as [|x l Hnotin _]. apply Hnotin. now left.
Qed.

End DeduplicationProperties.

Section EffectAndFaultProperties.

Import Py RagEngine Statements EvaluatorFacts.

(** C7 (as the code has it).  [check_food_safety] changes nothing but the
    ingredient list of [food_info], and that only in one case: when the
    list is present and empty and the description is not empty, the
    ingredients extracted from the description are appended to the list in
    place, so the caller's [food_info] holds them after the call.  In every
    other case, and for every other entry, [food_info] is left as it was. *)
Theorem food_info_after_check (food_name : option string) (fi : food_record)
  (r : option findings) :
  v_food_info (check_food_safety food_name (Some fi) r)
  = Some match fi_ingredients fi, fi_description fi with
         | Some [], Some (String c d) =>
             {| fi_name := fi_name fi;
                fi_ingredients :=
                  Some (WebScraper.extract_ingredients_from_text (String c d));
                fi_description := fi_description fi;
                fi_source := fi_source fi |}
         | _, _ => fi
         end.
Proof.
  unfold check_food_safety, check_food_safety_try.
  destruct fi as [n [[|i l]|] [[|c d]|] s];
    destruct food_name, r; reflexivity.
Qed.

(** C7, counterexample.  With an empty ingredient list and the description
    "contains salt", the call leaves ["salt"] in the ingredient list of the
    caller's [food_info]. *)
Lemma check_food_safety_fills_ingredients :
  let fi := {| fi_name := "crackers"; fi_ingredients := Some [];
               fi_description := Some "contains salt";
               fi_source := "general" |} in
  v_food_info (check_food_safety (Some "crackers") (Some fi) (Some no_findings))
  = Some {| fi_name := "crackers"; fi_ingredients := Some ["salt"];
            fi_description := Some "contains salt";
            fi_source := "general" |}
  /\ v_food_info (check_food_safety (Some "crackers") (Some fi) (Some no_findings))
     <> Some fi.
Proof.
  split; [reflexivity|]. vm_compute. discriminate.
Qed.




(** The bodies raise exactly when an argument is [None]. *)
Lemma analyze_prescription_raises_iff (prescription_text : option string) :
  (exists e, analyze_prescription_try prescription_text = Raise e)
  <-> prescription_text = None.
Proof.
  destruct prescription_text; simpl; split.
  - intros [e H]. discriminate H.
  - discriminate.
  - reflexivity.
  - intros _. eexists. reflexivity.
Qed.

Lemma check_food_safety_raises_iff (food_name : option string)
  (food_info : option food_record) (r : option findings) :
  (exists e, fst (check_food_safety_try food_name food_info r) = Raise e)
  <-> food_name = None \/ food_info = None \/ r = None.
Proof.
  unfold check_food_safety_try.
  destruct food_info as [fi|].
  - destruct (negb _ && _); destruct food_name, r; simpl; split;
      try (intros [e H]; discriminate H);
      try (intros [H | [H | H]]; discriminate H);
      try (intros _; eexists; reflexivity); auto.
  - simpl. split; [auto | intros _; eexists; reflexivity].
Qed.

(** C9.  For the empty prescription text, [analyze_prescription] returns
    findings whose medication, condition, allergy and restriction lists are
    all empty, and its body ends normally. *)
Theorem empty_text_no_findings :
  analyze_prescription_try (Some "") = Ok no_findings
  /\ medications (analyze_prescription (Some "")) = []
  /\ conditions (analyze_prescription (Some "")) = []
  /\ allergies (analyze_prescription (Some "")) = []
  /\ restrictions (analyze_prescription (Some "")) = [].
Proof. repeat split; vm_compute; reflexivity. Qed.

(** C5 (as the code has it).  On "I am allergic to peanuts and shellfish"
    [extract_allergies] returns exactly the two terms "peanuts" (the
    vocabulary hit) and "peanuts and" (the one-or-two-word capture after
    "allergic to"); "shellfish", which does not follow "allergic to", is
    not returned. *)
Theorem extract_allergies_peanuts_only :
  forall x, In x (extract_allergies "I am allergic to peanuts and shellfish")
            <-> x = "peanuts" \/ x = "peanuts and".
Proof.
  intros x. vm_compute. intuition congruence.
Qed.

(** C5, counterexample. *)
Lemma extract_allergies_misses_shellfish :
  In "peanuts" (extract_allergies "I am allergic to peanuts and shellfish")
  /\ ~ In "shellfish"
          (extract_allergies "I am allergic to peanuts and shellfish").
Proof.
  split; vm_compute; [tauto | intuition discriminate].
Qed.

End EffectAndFaultProperties.

(* ================================================================== *)
(** * The description extractor *)
(* ================================================================== *)

Module DescriptionFacts.

Import Py WebScraper Statements.

(** [split] always yields at least one piece. *)
Lemma split_nn_acc_cons (s cur : string) :
  exists first rest, split_nn_acc cur s = first :: rest.
Proof.
  revert cur. induction s as [|c s IH]; intros cur; simpl.
  - now exists cur, [].
  - destruct s as [|d s'].
    + now eexists _, [].
    + destruct (Ascii.eqb c "010" && Ascii.eqb d "010").
      * now eexists _, _.
      * apply IH.
Qed.

(** [extract_description] returns the first piece of the split; its second
    [return] is never reached. *)
Lemma extract_description_first_paragraph (text : string) :
  exists rest, split_nn text = extract_description text :: rest.
Proof.
  unfold extract_description, split_nn.
  destruct (split_nn_acc_cons text "") as [first [rest ->]].
  now exists rest.
Qed.

(** Without a paragraph break the split has one piece, the text itself. *)
Lemma split_nn_acc_no_break (s cur : string) :
  str_in paragraph_break s = false -> split_nn_acc cur s = [(cur ++ s)%string].
Proof.
  revert cur. induction s as [|c s IH]; intros cur H.
  - simpl. now rewrite append_nil_r.
  - cbn [str_in] in H. apply orb_false_iff in H. destruct H as [Hhere Hlater].
    cbn [split_nn_acc]. destruct s as [|d s'].
    + reflexivity.
    + unfold paragraph_break in Hhere. cbn [startswith] in Hhere.
      rewrite andb_true_r in Hhere.
      rewrite (Ascii.eqb_sym c), (Ascii.eqb_sym d), Hhere.
      rewrite (IH _ Hlater). now rewrite <- append_assoc.
Qed.

Lemma extract_description_no_break (text : string) :
  str_in paragraph_break text = false -> extract_description text = text.
Proof.
  intros H. unfold extract_description, split_nn.
  now rewrite (split_nn_acc_no_break _ _ H).
Qed.

End DescriptionFacts.

Section DescriptionProperties.

Import Py WebScraper Statements.

(** C6.  The text "plain yogurt" has no paragraph break.  The specification asks for
    its first 200 characters followed by the truncation marker, that is
    "plain yogurt..."; [extract_description] returns the text as it is,
    without the marker. *)
Theorem extract_description_returns_text_as_is :
  str_in paragraph_break "plain yogurt" = false
  /\ extract_description "plain yogurt" = "plain yogurt"
  /\ (take 200 "plain yogurt" ++ "...")%string = "plain yogurt..."
  /\ extract_description "plain yogurt"
     <> (take 200 "plain yogurt" ++ "...")%string.
Proof.
  repeat split; try reflexivity. vm_compute. discriminate.
Qed.

End DescriptionProperties.

(* ================================================================== *)
(** * The scenarios of the specification, run on the model *)
(* ================================================================== *)

(** Lists that went through [set] are shown in the order [list_set] gives
    them; Python fixes their elements, not their order. *)

Section Scenarios.

Import Py WebScraper RagEngine.

Example medications_of_metformin_prescription :
  extract_medications (lower "The patient was prescribed metformin 500 mg daily")
  = ["metformin"].
Proof. vm_compute. reflexivity. Qed.

Example conditions_of_type_2_diabetes :
  extract_conditions "diagnosed with type 2 diabetes" = ["diabetes"; "type 2"].
Proof. vm_compute. reflexivity. Qed.

Example ingredients_of_labelled_description :
  extract_ingredients_from_text "Ingredients: wheat, milk, salt. Best served cold."
  = ["wheat"; "milk"; "salt"].
Proof. vm_compute. reflexivity. Qed.

Example first_paragraph_of_two :
  extract_description ("Yogurt is a food." ++ Statements.paragraph_break
                       ++ "It is made from milk.")%string
  = "Yogurt is a food.".
Proof. vm_compute. reflexivity. Qed.

Example grapefruit_juice_with_statins :
  let v := check_food_safety
             (Some "grapefruit juice")
             (Some {| fi_name := "grapefruit juice"; fi_ingredients := Some [];
                      fi_description := Some ""; fi_source := "general" |})
             (Some {| medications := ["statins"]; conditions := [];
                      allergies := []; restrictions := [] |}) in
  v_is_safe v = false
  /\ v_unsafe_ingredients v = ["grapefruit"; "grapefruit juice"]
  /\ v_explanation v
     = ["grapefruit may interact with your medication statins.";
        "grapefruit juice may interact with your medication statins."].
Proof. vm_compute. repeat split; reflexivity. Qed.

Example prescription_with_three_findings :
  analyze_prescription
    (Some "Diagnosed with type 2 diabetes. Prescribed Warfarin 5 mg daily. Allergic to tree nuts.")
  = {| medications := ["warfarin"];
       conditions := ["diabetes"; "type 2"];
       allergies := ["tree nuts"];
       restrictions :=
         ["green leafy vegetables"; "cranberries"; "grapefruit"; "sugar";
          "high carbs"; "honey"; "syrup"; "tree nuts"] |}.
Proof. vm_compute. reflexivity. Qed.

End Scenarios.

(* ================================================================== *)
(** * More about the safety evaluator *)
(* ================================================================== *)

Module VerdictFacts.

Import Py FoodSafetyKnowledge RagEngine Statements Tests EvaluatorFacts.

(** The flag after a loop whose body clears it exactly when [fires]. *)
Lemma fold_is_safe {B : Type} (f : tally -> B -> tally) (fires : B -> bool) :
  (forall t b, is_safe (f t b) = is_safe t && negb (fires b)) ->
  forall l t, is_safe (fold_left f l t) = is_safe t && negb (existsb fires l).
Proof.
  intros Hstep l. induction l as [|b l IH]; intros t; simpl.
  - now rewrite andb_true_r.
  - rewrite IH, Hstep, negb_orb. now rewrite andb_assoc.
Qed.

Lemma is_safe_if_flag (c : bool) (t : tally) (item message : string) :
  is_safe (if c then flag t item message else t) = is_safe t && negb c.
Proof.
  destruct c; simpl; [now rewrite andb_false_r | now rewrite andb_true_r].
Qed.

Lemma check_name_is_safe food_name r t :
  is_safe (check_name food_name r t)
  = is_safe t && negb (list_in (lower food_name) (map lower (restrictions r))).
Proof. unfold check_name. apply is_safe_if_flag. Qed.

Lemma check_ingredients_is_safe ingredients r t :
  is_safe (check_ingredients ingredients r t)
  = is_safe t
    && negb (existsb (fun ingredient =>
                        existsb (fun restriction =>
                                   term_matches restriction ingredient)
                                (restrictions r))
                     ingredients).
Proof.
  unfold check_ingredients.
  apply (fold_is_safe _ (fun ingredient =>
           existsb (fun restriction => term_matches restriction ingredient)
                   (restrictions r))).
  intros t' ingredient.
  apply (fold_is_safe _ (fun restriction => term_matches restriction ingredient)).
  intros t'' restriction. apply is_safe_if_flag.
Qed.

Lemma check_medications_is_safe food_name ingredients r t :
  is_safe (check_medications food_name ingredients r t)
  = is_safe t
    && negb (existsb (fun medication =>
                        existsb (fun risky_food =>
                                   found_in risky_food food_name ingredients)
                                (get_risky_foods_for_medication medication))
                     (medications r)).
Proof.
  unfold check_medications.
  apply (fold_is_safe _ (fun medication =>
           existsb (fun risky_food => found_in risky_food food_name ingredients)
                   (get_risky_foods_for_medication medication))).
  intros t' medication.
  apply (fold_is_safe _ (fun risky_food =>
                           found_in risky_food food_name ingredients)).
  intros t'' risky_food. apply is_safe_if_flag.
Qed.

Lemma check_allergies_is_safe food_name ingredients r t :
  is_safe (check_allergies food_name ingredients r t)
  = is_safe t
    && negb (existsb (fun allergy => found_in allergy food_name ingredients)
                     (allergies r)).
Proof.
  unfold check_allergies.
  apply (fold_is_safe _ (fun allergy => found_in allergy food_name ingredients)).
  intros t' allergy. apply is_safe_if_flag.
Qed.

(** The flag after the four checks. *)
Lemma checks_is_safe food_name ingredients r :
  is_safe (checks food_name ingredients r)
  = negb (list_in (lower food_name) (map lower (restrictions r)))
    && negb (existsb (fun ingredient =>
                        existsb (fun restriction =>
                                   term_matches restriction ingredient)
                                (restrictions r))
                     ingredients)
    && negb (existsb (fun medication =>
                        existsb (fun risky_food =>
                                   found_in risky_food food_name ingredients)
                                (get_risky_foods_for_medication medication))
                     (medications r))
    && negb (existsb (fun allergy => found_in allergy food_name ingredients)
                     (allergies r)).
Proof.
  unfold checks.
  rewrite check_allergies_is_safe, check_medications_is_safe,
          check_ingredients_is_safe, check_name_is_safe.
  reflexivity.
Qed.

Lemma found_in_lower_name term food_name ingredients :
  found_in term (lower food_name) ingredients = found_in term food_name ingredients.
Proof. unfold found_in. now rewrite lower_idem. Qed.

(** The flag after the four checks, in words. *)
Lemma checks_unsafe_iff food_name ingredients r :
  is_safe (checks food_name ingredients r) = false
  <-> In (lower food_name) (map lower (restrictions r))
      \/ (exists ingredient restriction,
            In ingredient ingredients
            /\ In restriction (restrictions r)
            /\ term_matches restriction ingredient = true)
      \/ (exists medication risky_food,
            In medication (medications r)
            /\ In risky_food (get_risky_foods_for_medication medication)
            /\ found_in risky_food food_name ingredients = true)
      \/ (exists allergy,
            In allergy (allergies r)
            /\ found_in allergy food_name ingredients = true).
Proof.
  rewrite checks_is_safe.
  rewrite !andb_false_iff, !negb_false_iff, <- list_in_spec.
  rewrite !existsb_exists.
  split.
  - intros [[[H | H] | H] | H].
    + now left.
    + right; left. destruct H as [i [Hi H]]. apply existsb_exists in H.
      destruct H as [x [Hx H]]. now exists i, x.
    + right; right; left. destruct H as [m [Hm H]]. apply existsb_exists in H.
      destruct H as [x [Hx H]]. now exists m, x.
    + right; right; right. exact H.
  - intros [H | [H | [H | H]]].
    + now left; left; left.
    + left; left; right. destruct H as [i [x [Hi [Hx H]]]].
      exists i. split; [assumption|]. apply existsb_exists. now exists x.
    + left; right. destruct H as [m [x [Hm [Hx H]]]].
      exists m. split; [assumption|]. apply existsb_exists. now exists x.
    + right. exact H.
Qed.

End VerdictFacts.

Section VerdictProperties.

Import Py FoodSafetyKnowledge RagEngine Statements Tests EvaluatorFacts VerdictFacts.

(** X1.  On well-formed arguments the verdict of [check_food_safety] is
    unsafe exactly when one of the four checks fires: the food name equals a
    restriction ignoring case; or some ingredient and some restriction
    contain one another; or a risky food of a listed medication occurs in
    the food name or in an ingredient; or a listed allergy does. *)
Theorem unsafe_exactly_when_a_check_fires (food_name : string)
  (fi : food_record) (r : findings) :
  v_is_safe (check_food_safety (Some food_name) (Some fi) (Some r)) = false
  <-> In (lower food_name) (map lower (restrictions r))
      \/ (exists ingredient restriction,
            In ingredient (ingredients_used fi)
            /\ In restriction (restrictions r)
            /\ term_matches restriction ingredient = true)
      \/ (exists medication risky_food,
            In medication (medications r)
            /\ In risky_food (get_risky_foods_for_medication medication)
            /\ found_in risky_food food_name (ingredients_used fi) = true)
      \/ (exists allergy,
            In allergy (allergies r)
            /\ found_in allergy food_name (ingredients_used fi) = true).
Proof.
  unfold check_food_safety. rewrite check_food_safety_normal.
  cbn [v_is_safe]. apply checks_unsafe_iff.
Qed.

(** X2.  The safe/unsafe flag does not depend on the letter case of the
    food name: two names that are equal ignoring case get the same flag
    (the offending items may differ, they record the name as given). *)
Theorem flag_ignores_case_of_food_name (n1 n2 : string) (fi : food_record)
  (r : findings) :
  lower n1 = lower n2 ->
  v_is_safe (check_food_safety (Some n1) (Some fi) (Some r))
  = v_is_safe (check_food_safety (Some n2) (Some fi) (Some r)).
Proof.
  intros H. unfold check_food_safety. rewrite !check_food_safety_normal.
  cbn [v_is_safe]. rewrite !checks_is_safe. unfold found_in. now rewrite H.
Qed.

Lemma flag_ignores_case_of_food_name_witness :
  let fi := {| fi_name := "milk"; fi_ingredients := Some ["water"];
               fi_description := None; fi_source := "general" |} in
  let r := {| medications := []; conditions := []; allergies := ["milk"];
              restrictions := ["milk"] |} in
  v_is_safe (check_food_safety (Some "Oat MILK") (Some fi) (Some r))
  = v_is_safe (check_food_safety (Some "oat milk") (Some fi) (Some r)).
Proof.
  apply (flag_ignores_case_of_food_name "Oat MILK" "oat milk").
  reflexivity.
Defined.

(** X3.  With findings that list nothing (no medication, no allergy, no
    restriction) every food is reported safe, whatever its name,
    ingredients and description. *)
Theorem nothing_listed_means_safe (food_name : string) (fi : food_record)
  (r : findings) :
  medications r = [] -> allergies r = [] -> restrictions r = [] ->
  let v := check_food_safety (Some food_name) (Some fi) (Some r) in
  v_is_safe v = true
  /\ v_unsafe_ingredients v = []
  /\ v_explanation v = []
  /\ v_recommendation v = "This food appears to be safe for you to consume.".
Proof.
  intros Hm Ha Hr.
  assert (Hsafe : is_safe (checks food_name (ingredients_used fi) r) = true).
  { rewrite checks_is_safe, Hm, Ha, Hr. simpl.
    replace (existsb (fun _ : string => false) (ingredients_used fi)) with false.
    - reflexivity.
    - symmetry. induction (ingredients_used fi); simpl; auto. }
  unfold check_food_safety. rewrite check_food_safety_normal.
  cbn [v_is_safe v_unsafe_ingredients v_explanation v_recommendation].
  destruct (checks_settled food_name (ingredients_used fi) r Hsafe) as [-> ->].
  rewrite Hsafe. repeat split; reflexivity.
Qed.

Lemma nothing_listed_means_safe_witness :
  v_is_safe
    (check_food_safety
       (Some "peanut butter")
       (Some {| fi_name := "peanut butter"; fi_ingredients := Some ["peanuts"];
                fi_description := None; fi_source := "general" |})
       (Some {| medications := []; conditions := ["diabetes"]; allergies := [];
                restrictions := [] |})) = true.
Proof.
  apply (nothing_listed_means_safe
           "peanut butter"
           {| fi_name := "peanut butter"; fi_ingredients := Some ["peanuts"];
              fi_description := None; fi_source := "general" |}
           {| medications := []; conditions := ["diabetes"]; allergies := [];
              restrictions := [] |});
    reflexivity.
Defined.

(** X25.  Findings that list more can only make a food less safe: if every
    medication, allergy and restriction of [r] is also in [r'], a food that
    is safe under [r'] is safe under [r]. *)
Theorem fewer_findings_never_less_safe (food_name : string) (fi : food_record)
  (r r' : findings) :
  incl (medications r) (medications r') ->
  incl (allergies r) (allergies r') ->
  incl (restrictions r) (restrictions r') ->
  v_is_safe (check_food_safety (Some food_name) (Some fi) (Some r')) = true ->
  v_is_safe (check_food_safety (Some food_name) (Some fi) (Some r)) = true.
Proof.
  intros Hm Ha Hr. unfold check_food_safety.
  rewrite !check_food_safety_normal. cbn [v_is_safe]. intros Hsafe.
  apply not_false_iff_true. intros Hunsafe.
  apply not_false_iff_true in Hsafe. apply Hsafe.
  apply checks_unsafe_iff. apply checks_unsafe_iff in Hunsafe.
  destruct Hunsafe as [H | [H | [H | H]]].
  - left. apply in_map_iff in H. destruct H as [x [Hx H]].
    rewrite <- Hx. apply in_map. now apply Hr.
  - right; left. destruct H as [i [x [Hi [Hx H]]]]. exists i, x. auto.
  - right; right; left. destruct H as [m [x [Hm' [Hx H]]]]. exists m, x. auto.
  - right; right; right. destruct H as [a [Ha' H]]. exists a. auto.
Qed.

Lemma fewer_findings_never_less_safe_witness :
  v_is_safe
    (check_food_safety
       (Some "apple")
       (Some {| fi_name := "apple"; fi_ingredients := Some ["apple"];
                fi_description := None; fi_source := "general" |})
       (Some {| medications := []; conditions := []; allergies := ["milk"];
                restrictions := ["milk"] |})) = true.
Proof.
  apply (fewer_findings_never_less_safe
           "apple" _ _
           {| medications := ["statins"]; conditions := [];
              allergies := ["milk"; "eggs"];
              restrictions := ["grapefruit"; "grapefruit juice"; "milk"; "eggs"] |}).
  - intros x [].
  - intros x [<- | []]. simpl. tauto.
  - intros x [<- | []]. simpl. tauto.
  - reflexivity.
Defined.

End VerdictProperties.

Module RecordingFacts.

Import Py FoodSafetyKnowledge RagEngine Statements Tests EvaluatorFacts.

(** A loop invariant that may use that the loop variable is in the list. *)
Lemma fold_left_invariant_In {A B : Type} (P : A -> Prop) (f : A -> B -> A)
  (l : list B) :
  (forall a b, In b l -> P a -> P (f a b)) ->
  forall a, P a -> P (fold_left f l a).
Proof.
  induction l as [|b l IH]; simpl; intros Hstep a Ha; [assumption|].
  apply IH.
  - intros a' b' Hb'. apply Hstep. now right.
  - apply Hstep; [now left | assumption].
Qed.

(** What is recorded once stays recorded through a loop whose body keeps
    the tally, and the turn of [b] records it. *)
Lemma fold_left_records {B : Type} (Q : tally -> Prop)
  (f : tally -> B -> tally) (l : list B) (b : B) :
  (forall t t', keeps t t' -> Q t -> Q t') ->
  (forall t b', keeps t (f t b')) ->
  (forall t, Q (f t b)) ->
  In b l -> forall t, Q (fold_left f l t).
Proof.
  intros HQ Hkeeps Hb. induction l as [|b' l IH]; simpl; [contradiction|].
  intros [-> | Hin] t.
  - apply (fold_left_invariant Q); [|apply Hb].
    intros t' b'' Ht'. eapply HQ; [apply Hkeeps | exact Ht'].
  - now apply IH.
Qed.

Lemma recorded_keeps item message t t' :
  keeps t t' -> recorded item message t -> recorded item message t'.
Proof.
  intros [K1 [K2 K3]] [H1 [H2 H3]]. repeat split; auto.
Qed.

Lemma recorded_flag item message t : recorded item message (flag t item message).
Proof.
  repeat split; simpl; apply in_or_app; right; now left.
Qed.

Lemma keeps_if_flag (c : bool) t item message :
  keeps t (if c then flag t item message else t).
Proof. destruct c; [apply keeps_flag | apply keeps_refl]. Qed.

Lemma keeps_fold {B : Type} (f : tally -> B -> tally) (l : list B) :
  (forall t b, keeps t (f t b)) -> forall t, keeps t (fold_left f l t).
Proof.
  intros H t. apply (fold_left_invariant (keeps t)); [|apply keeps_refl].
  intros a b Ha. eapply keeps_trans; [exact Ha | apply H].
Qed.

Lemma check_ingredients_records ingredients r t ingredient restriction :
  In ingredient ingredients -> In restriction (restrictions r) ->
  term_matches restriction ingredient = true ->
  recorded ingredient
    (ingredient ++ " may interact with your health condition or medication.")%string
    (check_ingredients ingredients r t).
Proof.
  intros Hi Hr Hm. unfold check_ingredients.
  apply (fold_left_records _ _ _ ingredient); try assumption.
  - intros a b. apply recorded_keeps.
  - intros a b. apply keeps_fold. intros a' b'. apply keeps_if_flag.
  - intros a. apply (fold_left_records _ _ _ restriction); try assumption.
    + intros a' b'. apply recorded_keeps.
    + intros a' b'. apply keeps_if_flag.
    + intros a'. unfold term_matches in Hm. rewrite Hm. apply recorded_flag.
Qed.

Lemma check_medications_records food_name ingredients r t medication risky_food :
  In medication (medications r) ->
  In risky_food (get_risky_foods_for_medication medication) ->
  found_in risky_food food_name ingredients = true ->
  recorded risky_food
    (risky_food ++ " may interact with your medication " ++ medication ++ ".")%string
    (check_medications food_name ingredients r t).
Proof.
  intros Hm Hr Hf. unfold check_medications.
  apply (fold_left_records _ _ _ medication); try assumption.
  - intros a b. apply recorded_keeps.
  - intros a b. apply keeps_fold. intros a' b'. apply keeps_if_flag.
  - intros a. apply (fold_left_records _ _ _ risky_food); try assumption.
    + intros a' b'. apply recorded_keeps.
    + intros a' b'. apply keeps_if_flag.
    + intros a'. unfold found_in in Hf. rewrite Hf. apply recorded_flag.
Qed.

Lemma check_allergies_records food_name ingredients r t allergy :
  In allergy (allergies r) ->
  found_in allergy food_name ingredients = true ->
  recorded allergy (allergy ++ " is listed in your allergies.")%string
    (check_allergies food_name ingredients r t).
Proof.
  intros Ha Hf. unfold check_allergies.
  apply (fold_left_records _ _ _ allergy); try assumption.
  - intros a b. apply recorded_keeps.
  - intros a b. apply keeps_if_flag.
  - intros a. unfold found_in in Hf. rewrite Hf. apply recorded_flag.
Qed.

(** From the tally to the verdict. *)
Lemma recorded_in_verdict food_name fi r item message :
  recorded item message (checks food_name (ingredients_used fi) r) ->
  let v := check_food_safety (Some food_name) (Some fi) (Some r) in
  v_is_safe v = false
  /\ In item (v_unsafe_ingredients v)
  /\ In message (v_explanation v).
Proof.
  intros [H1 [H2 H3]]. unfold check_food_safety.
  rewrite check_food_safety_normal.
  cbn [v_is_safe v_unsafe_ingredients v_explanation].
  repeat split; [assumption | now apply list_set_In | now apply list_set_In].
Qed.

Lemma founded_flag t item message : founded (flag t item message).
Proof.
  intros _. split; simpl; intros H; apply app_eq_nil in H;
    destruct H as [_ H]; discriminate H.
Qed.

Lemma founded_if_flag (c : bool) t item message :
  founded t -> founded (if c then flag t item message else t).
Proof. destruct c; [intros _; apply founded_flag | trivial]. Qed.

Lemma checks_founded food_name ingredients r :
  founded (checks food_name ingredients r).
Proof.
  unfold checks, check_allergies, check_medications, check_ingredients,
         check_name.
  repeat (apply fold_left_invariant; [intros |]);
    try (apply founded_if_flag; try assumption).
  all: try assumption.
  intros H. discriminate H.
Qed.

Lemma list_set_nil (l : list string) : list_set l = [] <-> l = [].
Proof.
  split; [|intros ->; reflexivity].
  intros H. destruct l as [|x l]; [reflexivity|].
  assert (In x (list_set (x :: l))) as Hin by (apply list_set_In; now left).
  rewrite H in Hin. contradiction.
Qed.

End RecordingFacts.

Module ProvenanceFacts.

Import Py FoodSafetyKnowledge RagEngine Statements Tests EvaluatorFacts
       RecordingFacts.

Lemma checks_offend food_name ingredients r (x : string) :
  In x (unsafe_ingredients (checks food_name ingredients r)) ->
  offends food_name ingredients r x.
Proof.
  revert x.
  change (forall x, In x (unsafe_ingredients (checks food_name ingredients r)) ->
                    offends food_name ingredients r x)
    with ((fun t => forall x, In x (unsafe_ingredients t) ->
                              offends food_name ingredients r x)
            (checks food_name ingredients r)).
  unfold checks, check_allergies, check_medications, check_ingredients,
         check_name.
  apply fold_left_invariant_In.
  { intros t allergy Ha IH.
    destruct (_ || _) eqn:E; [|exact IH].
    simpl. intros x Hx. apply in_app_or in Hx.
    destruct Hx as [Hx | [<- | []]]; [auto|].
    right; right; right. split; assumption. }
  apply fold_left_invariant_In.
  { intros t medication Hm IH. apply fold_left_invariant_In; [|exact IH].
    intros t' risky Hr IH'.
    destruct (_ || _) eqn:E; [|exact IH'].
    simpl. intros x Hx. apply in_app_or in Hx.
    destruct Hx as [Hx | [<- | []]]; [auto|].
    right; right; left. exists medication. repeat split; assumption. }
  apply fold_left_invariant_In.
  { intros t ingredient Hi IH. apply fold_left_invariant_In; [|exact IH].
    intros t' restriction Hr IH'.
    destruct (_ || _) eqn:E; [|exact IH'].
    simpl. intros x Hx. apply in_app_or in Hx.
    destruct Hx as [Hx | [<- | []]]; [auto|].
    right; left. split; [assumption|]. exists restriction. split; assumption. }
  destruct (list_in _ _) eqn:E; simpl.
  - intros x [<- | []]. left. split; [reflexivity | now apply list_in_spec].
  - intros x [].
Qed.

Lemma ingredients_used_left (fi : food_record) :
  ingredients_used (food_info_left fi) = ingredients_used fi
  /\ food_info_left (food_info_left fi) = food_info_left fi.
Proof.
  destruct fi as [n [[|i l]|] [[|c d]|] s];
    unfold ingredients_used, food_info_left, extend_ingredients; simpl;
    try (split; reflexivity).
  destruct (WebScraper.extract_ingredients_from_text (String c d));
    split; reflexivity.
Qed.

End ProvenanceFacts.

Section RecordingProperties.

Import Py FoodSafetyKnowledge RagEngine Statements Tests EvaluatorFacts
       RecordingFacts ProvenanceFacts.

(** X4.  If a listed allergy occurs, ignoring case, in the food name or in
    one of the ingredients, the verdict is unsafe, the allergy is among the
    offending items and "<allergy> is listed in your allergies." is among
    the explanations. *)
Theorem allergy_in_food_is_unsafe (food_name : string) (fi : food_record)
  (r : findings) (allergy : string) :
  In allergy (allergies r) ->
  found_in allergy food_name (ingredients_used fi) = true ->
  let v := check_food_safety (Some food_name) (Some fi) (Some r) in
  v_is_safe v = false
  /\ In allergy (v_unsafe_ingredients v)
  /\ In (allergy ++ " is listed in your allergies.")%string (v_explanation v).
Proof.
  intros Ha Hf. apply recorded_in_verdict. unfold checks.
  now apply check_allergies_records.
Qed.

Lemma allergy_in_food_is_unsafe_witness :
  let v := check_food_safety
             (Some "Peanut Butter")
             (Some {| fi_name := "Peanut Butter"; fi_ingredients := None;
                      fi_description := None; fi_source := "general" |})
             (Some {| medications := []; conditions := [];
                      allergies := ["peanut"]; restrictions := ["peanut"] |}) in
  v_is_safe v = false
  /\ In "peanut" (v_unsafe_ingredients v)
  /\ In "peanut is listed in your allergies." (v_explanation v).
Proof.
  apply (allergy_in_food_is_unsafe "Peanut Butter" _ _ "peanut").
  - simpl. tauto.
  - reflexivity.
Defined.

(** X5.  If a food that the knowledge base returns for a listed medication
    occurs, ignoring case, in the food name or in one of the ingredients,
    the verdict is unsafe, that food is among the offending items and
    "<food> may interact with your medication <medication>." is among the
    explanations. *)
Theorem risky_food_in_food_is_unsafe (food_name : string) (fi : food_record)
  (r : findings) (medication risky_food : string) :
  In medication (medications r) ->
  In risky_food (get_risky_foods_for_medication medication) ->
  found_in risky_food food_name (ingredients_used fi) = true ->
  let v := check_food_safety (Some food_name) (Some fi) (Some r) in
  v_is_safe v = false
  /\ In risky_food (v_unsafe_ingredients v)
  /\ In (risky_food ++ " may interact with your medication "
         ++ medication ++ ".")%string
        (v_explanation v).
Proof.
  intros Hm Hr Hf. apply recorded_in_verdict. unfold checks.
  eapply recorded_keeps; [apply check_allergies_keeps|].
  now apply check_medications_records.
Qed.

Lemma risky_food_in_food_is_unsafe_witness :
  let v := check_food_safety
             (Some "fruit salad")
             (Some {| fi_name := "fruit salad";
                      fi_ingredients := Some ["Grapefruit"; "apple"];
                      fi_description := None; fi_source := "general" |})
             (Some {| medications := ["warfarin"]; conditions := [];
                      allergies := []; restrictions := [] |}) in
  v_is_safe v = false
  /\ In "grapefruit" (v_unsafe_ingredients v)
  /\ In "grapefruit may interact with your medication warfarin."
        (v_explanation v).
Proof.
  apply (risky_food_in_food_is_unsafe "fruit salad" _ _ "warfarin" "grapefruit").
  - simpl. tauto.
  - simpl. tauto.
  - reflexivity.
Defined.

(** X6.  If an ingredient and a restriction contain one another, ignoring
    case, the verdict is unsafe, the ingredient is among the offending items
    and "<ingredient> may interact with your health condition or
    medication." is among the explanations. *)
Theorem restricted_ingredient_is_unsafe (food_name : string) (fi : food_record)
  (r : findings) (ingredient restriction : string) :
  In ingredient (ingredients_used fi) ->
  In restriction (restrictions r) ->
  term_matches restriction ingredient = true ->
  let v := check_food_safety (Some food_name) (Some fi) (Some r) in
  v_is_safe v = false
  /\ In ingredient (v_unsafe_ingredients v)
  /\ In (ingredient
         ++ " may interact with your health condition or medication.")%string
        (v_explanation v).
Proof.
  intros Hi Hr Hm. apply recorded_in_verdict. unfold checks.
  eapply recorded_keeps; [apply check_allergies_keeps|].
  eapply recorded_keeps; [apply check_medications_keeps|].
  now apply (check_ingredients_records _ _ _ ingredient restriction).
Qed.

Lemma restricted_ingredient_is_unsafe_witness :
  let v := check_food_safety
             (Some "cookies")
             (Some {| fi_name := "cookies";
                      fi_ingredients := Some ["flour"; "brown sugar"];
                      fi_description := None; fi_source := "general" |})
             (Some {| medications := []; conditions := ["diabetes"];
                      allergies := [];
                      restrictions := ["sugar"; "high carbs"; "honey"; "syrup"] |}) in
  v_is_safe v = false
  /\ In "brown sugar" (v_unsafe_ingredients v)
  /\ In "brown sugar may interact with your health condition or medication."
        (v_explanation v).
Proof.
  apply (restricted_ingredient_is_unsafe "cookies" _ _ "brown sugar" "sugar").
  - simpl. tauto.
  - simpl. tauto.
  - reflexivity.
Defined.

(** X7.  Every offending item of a verdict is there for a reason: it is the
    food name and the name equals a restriction ignoring case; or it is an
    ingredient that matches a restriction; or it is a risky food of a listed
    medication that occurs in the food; or it is a listed allergy that
    occurs in the food.  No other string is ever reported. *)
Theorem offending_items_have_a_reason (food_name : string) (fi : food_record)
  (r : findings) (x : string) :
  In x (v_unsafe_ingredients
          (check_food_safety (Some food_name) (Some fi) (Some r))) ->
  offends food_name (ingredients_used fi) r x.
Proof.
  unfold check_food_safety. rewrite check_food_safety_normal.
  cbn [v_unsafe_ingredients]. intros H.
  apply (proj1 (list_set_In _ _)) in H.
  now apply checks_offend.
Qed.

Lemma offending_items_have_a_reason_witness :
  offends "fruit salad" ["Grapefruit"; "apple"]
    {| medications := ["warfarin"]; conditions := [];
       allergies := []; restrictions := [] |}
    "grapefruit".
Proof.
  apply (offending_items_have_a_reason
           "fruit salad"
           {| fi_name := "fruit salad";
              fi_ingredients := Some ["Grapefruit"; "apple"];
              fi_description := None; fi_source := "general" |}
           {| medications := ["warfarin"]; conditions := [];
              allergies := []; restrictions := [] |}).
  vm_compute. tauto.
Defined.

(** X8.  On well-formed arguments a verdict is safe exactly when it names no
    offending item, and exactly when it gives no explanation. *)
Theorem safe_iff_nothing_reported (food_name : string) (fi : food_record)
  (r : findings) :
  let v := check_food_safety (Some food_name) (Some fi) (Some r) in
  (v_is_safe v = true <-> v_unsafe_ingredients v = [])
  /\ (v_is_safe v = true <-> v_explanation v = []).
Proof.
  unfold check_food_safety. rewrite check_food_safety_normal.
  cbn [v_is_safe v_unsafe_ingredients v_explanation].
  pose proof (checks_settled food_name (ingredients_used fi) r) as Hs.
  pose proof (checks_founded food_name (ingredients_used fi) r) as Hf.
  rewrite !list_set_nil. unfold settled in Hs. unfold founded in Hf.
  destruct (is_safe (checks food_name (ingredients_used fi) r)).
  - destruct (Hs eq_refl) as [-> ->]. split; split; reflexivity.
  - destruct (Hf eq_refl) as [Hu He].
    split; split; try discriminate; intros H; contradiction.
Qed.

(** X9.  The ingredients that a call leaves in [food_info] do not change
    what a later call decides: checking the same food again with the
    [food_info] returned in the verdict gives the same verdict. *)
Theorem second_check_gives_same_verdict (food_name : string)
  (fi : food_record) (r : findings) :
  let v := check_food_safety (Some food_name) (Some fi) (Some r) in
  check_food_safety (Some food_name) (v_food_info v) (Some r) = v.
Proof.
  unfold check_food_safety. rewrite check_food_safety_normal.
  cbn [v_food_info]. rewrite check_food_safety_normal.
  destruct (ingredients_used_left fi) as [-> ->]. reflexivity.
Qed.

End RecordingProperties.

(* ================================================================== *)
(** * What the matcher reports is a match *)
(* ================================================================== *)

Module ReFacts.

Import Py Re ReLang.

Lemma or_else_some (a : outcome) (b : unit -> outcome) (res : nat * caps) :
  or_else a b = Some res -> a = Some res \/ b tt = Some res.
Proof. destruct a; simpl; intros H; [left | right]; assumption. Qed.

Lemma star_k_sound (p : charset) (s : string) :
  forall pos cs k res,
    star_k p s pos cs k = Some res ->
    exists w s', s = (w ++ s')%string /\ lang (Star p) w
                 /\ k s' (pos + String.length w) cs = Some res.
Proof.
  induction s as [|c s IH]; intros pos cs k res H; simpl in H.
  - exists "", "". rewrite Nat.add_0_r. repeat split; [constructor | exact H].
  - destruct (p c) eqn:Hp.
    + apply or_else_some in H. destruct H as [H | H].
      * destruct (IH _ _ _ _ H) as [w [s' [-> [Hw Hk]]]].
        exists (String c w), s'. simpl. rewrite <- Nat.add_succ_comm.
        repeat split; [now constructor | exact Hk].
      * exists "", (String c s). rewrite Nat.add_0_r.
        repeat split; [constructor | exact H].
    + exists "", (String c s). rewrite Nat.add_0_r.
      repeat split; [constructor | exact H].
Qed.

(** A successful run of the matcher consumed a word of the pattern and went
    on with its continuation on the rest. *)
Lemma match_k_sound (r : regex) :
  forall s pos cs k res,
    match_k r s pos cs k = Some res ->
    exists w s' cs', s = (w ++ s')%string /\ lang r w
                     /\ k s' (pos + String.length w) cs' = Some res.
Proof.
  induction r as [|p|r1 IH1 r2 IH2|r1 IH1 r2 IH2|p|r1 IH1|i r1 IH1];
    intros s pos cs k res H; simpl in H.
  - exists "", s, cs. rewrite Nat.add_0_r. repeat split; [constructor | exact H].
  - destruct s as [|c s]; [discriminate|].
    destruct (p c) eqn:Hp; [|discriminate].
    exists (String c ""), s, cs. simpl. rewrite Nat.add_1_r.
    repeat split; [now constructor | exact H].
  - destruct (IH1 _ _ _ _ _ H) as [w1 [s1 [cs1 [-> [Hw1 H1]]]]].
    destruct (IH2 _ _ _ _ _ H1) as [w2 [s2 [cs2 [-> [Hw2 H2]]]]].
    exists (w1 ++ w2)%string, s2, cs2.
    rewrite length_append, Nat.add_assoc, <- append_assoc.
    repeat split; [now constructor | exact H2].
  - apply or_else_some in H. destruct H as [H | H].
    + destruct (IH1 _ _ _ _ _ H) as [w [s' [cs' [-> [Hw Hk]]]]].
      exists w, s', cs'. repeat split; [now apply lang_Alt_l | exact Hk].
    + destruct (IH2 _ _ _ _ _ H) as [w [s' [cs' [-> [Hw Hk]]]]].
      exists w, s', cs'. repeat split; [now apply lang_Alt_r | exact Hk].
  - destruct (star_k_sound _ _ _ _ _ _ H) as [w [s' [-> [Hw Hk]]]].
    now exists w, s', cs.
  - apply or_else_some in H. destruct H as [H | H].
    + destruct (IH1 _ _ _ _ _ H) as [w [s' [cs' [-> [Hw Hk]]]]].
      exists w, s', cs'. repeat split; [now apply lang_Opt_some | exact Hk].
    + exists "", s, cs. rewrite Nat.add_0_r.
      repeat split; [apply lang_Opt_none | exact H].
  - destruct (IH1 _ _ _ _ _ H) as [w [s' [cs' [-> [Hw Hk]]]]].
    exists w, s', ((i, (pos, pos + String.length w)) :: cs').
    repeat split; [now constructor | exact Hk].
Qed.

Lemma match_at_sound (r : regex) (s : string) (pos e : nat) (cs : caps) :
  match_at r s pos = Some (e, cs) ->
  exists w s', s = (w ++ s')%string /\ lang r w /\ e = pos + String.length w.
Proof.
  unfold match_at. intros H.
  destruct (match_k_sound _ _ _ _ _ _ H) as [w [s' [cs' [-> [Hw Hk]]]]].
  injection Hk as <- _. now exists w, s'.
Qed.

(** Every match that the scan reports is a word of the pattern that stands
    in the scanned text. *)
Lemma scan_sound (r : regex) (s : string) :
  forall pos skip m,
    In m (scan r s pos skip) ->
    exists pre w post, s = (pre ++ (w ++ post))%string /\ lang r w.
Proof.
  induction s as [|c s IH]; intros pos skip m H.
  - destruct skip as [|n]; simpl in H; [|contradiction].
    destruct (match_at r "" pos) as [[e cs]|] eqn:E; [|contradiction].
    destruct (match_at_sound _ _ _ _ _ E) as [w [s' [Hs [Hw _]]]].
    exists "", w, s'. split; [exact Hs | exact Hw].
  - assert (Hrest : forall pos' skip',
               In m (scan r s pos' skip') ->
               exists pre w post,
                 String c s = (pre ++ (w ++ post))%string /\ lang r w).
    { intros pos' skip' Hin.
      destruct (IH _ _ _ Hin) as [pre [w [post [-> Hw]]]].
      exists (String c pre), w, post. split; [reflexivity | exact Hw]. }
    destruct skip as [|n]; simpl in H; [|now apply (Hrest _ _ H)].
    destruct (match_at r (String c s) pos) as [[e cs]|] eqn:E.
    + destruct H as [_ | H]; [|now apply (Hrest _ _ H)].
      destruct (match_at_sound _ _ _ _ _ E) as [w [s' [Hs [Hw _]]]].
      exists "", w, s'. split; [exact Hs | exact Hw].
    + now apply (Hrest _ _ H).
Qed.

Lemma search_sound (r : regex) (text : string) :
  search r text = true ->
  exists pre w post, text = (pre ++ (w ++ post))%string /\ lang r w.
Proof.
  unfold search, finditer.
  destruct (scan r text 0 0) as [|m l] eqn:E; [discriminate|]. intros _.
  apply (scan_sound r text 0 0 m). rewrite E. now left.
Qed.

Lemma findall_group1_nonempty_sound (r : regex) (text x : string) :
  In x (findall_group1 r text) ->
  exists pre w post, text = (pre ++ (w ++ post))%string /\ lang r w.
Proof.
  unfold findall_group1, finditer. intros H. apply in_map_iff in H.
  destruct H as [m [_ Hm]]. now apply (scan_sound r text 0 0 m).
Qed.

(** Inversion of the words of composite patterns. *)
Lemma lang_Seq_inv (r1 r2 : regex) (w : string) :
  lang (Seq r1 r2) w ->
  exists w1 w2, w = (w1 ++ w2)%string /\ lang r1 w1 /\ lang r2 w2.
Proof. intros H. inversion H; subst. now exists w1, w2. Qed.

Lemma lang_Lit (s w : string) : lang (Lit s) w -> w = s.
Proof.
  revert w. induction s as [|c s IH]; intros w H; simpl in H.
  - now inversion H.
  - apply lang_Seq_inv in H. destruct H as [w1 [w2 [-> [H1 H2]]]].
    inversion H1 as [ | p0 c0 Hp | | | | | | | | ]; subst.
    apply Ascii.eqb_eq in Hp. subst c0.
    simpl. now rewrite (IH _ H2).
Qed.

Lemma lang_Group_inv (i : nat) (r : regex) (w : string) :
  lang (Group i r) w -> lang r w.
Proof. intros H. now inversion H. Qed.

(** A piece cut out with [substring] stands in the string. *)
Lemma substring_prefix (s : string) :
  forall n, exists post, s = (String.substring 0 n s ++ post)%string.
Proof.
  induction s as [|c s IH]; intros n.
  - exists "". now destruct n.
  - destruct n as [|n]; simpl.
    + now exists (String c s).
    + destruct (IH n) as [post Hp]. exists post. now rewrite <- Hp.
Qed.

Lemma substring_str_in (s : string) :
  forall a n, str_in (String.substring a n s) s = true.
Proof.
  induction s as [|c s IH]; intros a n.
  - destruct a, n; reflexivity.
  - destruct a as [|a].
    + apply str_in_spec. exists "".
      destruct (substring_prefix (String c s) n) as [post Hp]. now exists post.
    + cbn [String.substring str_in]. rewrite IH. apply orb_true_r.
Qed.

Lemma group_str_in (text : string) (m : match_obj) (i : nat) :
  str_in (group text m i) text = true.
Proof.
  unfold group. destruct (span_of i (snd m)) as [[a b]|].
  - apply substring_str_in.
  - apply str_in_spec. now exists "", text.
Qed.

Lemma findall_group1_str_in (r : regex) (text x : string) :
  In x (findall_group1 r text) -> str_in x text = true.
Proof.
  unfold findall_group1. intros H. apply in_map_iff in H.
  destruct H as [m [<- _]]. apply group_str_in.
Qed.

Lemma str_in_middle (pre w post : string) : str_in w (pre ++ (w ++ post)) = true.
Proof. apply str_in_spec. now exists pre, post. Qed.

Lemma str_in_app_l (a w1 w2 : string) :
  str_in a w1 = true -> str_in a (w1 ++ w2) = true.
Proof.
  rewrite !str_in_spec. intros [x [y ->]]. exists x, (y ++ w2)%string.
  now rewrite <- !append_assoc.
Qed.

Lemma str_in_app_r (a w1 w2 : string) :
  str_in a w2 = true -> str_in a (w1 ++ w2) = true.
Proof.
  rewrite !str_in_spec. intros [x [y ->]]. exists (w1 ++ x)%string, y.
  now rewrite <- !append_assoc.
Qed.

End ReFacts.

(* ================================================================== *)
(** * More about the text miner *)
(* ================================================================== *)

Module PatternFacts.

Import Py Re ReLang ReFacts RagEngine.

Lemma lang_seq_cons (r1 r2 : regex) (rs : list regex) (w : string) :
  lang (seq (r1 :: r2 :: rs)) w ->
  exists w1 w2, w = (w1 ++ w2)%string /\ lang r1 w1 /\ lang (seq (r2 :: rs)) w2.
Proof.
  change (seq (r1 :: r2 :: rs)) with (Seq r1 (seq (r2 :: rs))).
  apply lang_Seq_inv.
Qed.

(** A word of a pattern that begins with a literal contains the literal. *)
Lemma lang_begins_with (s : string) (r2 : regex) (rs : list regex) (w : string) :
  lang (seq (Lit s :: r2 :: rs)) w -> str_in s w = true.
Proof.
  intros H. apply lang_seq_cons in H. destruct H as [w1 [w2 [-> [H1 _]]]].
  apply lang_Lit in H1. subst. apply str_in_app_l, str_in_refl.
Qed.

(** A word of a pattern that ends with a literal contains the literal. *)
Lemma lang_ends_with (s : string) (rs : list regex) (w : string) :
  lang (seq (rs ++ [Lit s])) w -> str_in s w = true.
Proof.
  revert w. induction rs as [|r rs IH]; intros w H.
  - simpl in H. apply lang_Lit in H. subst. apply str_in_refl.
  - destruct rs as [|r' rs].
    + change (seq ([r] ++ [Lit s])) with (Seq r (Lit s)) in H.
      apply lang_Seq_inv in H. destruct H as [w1 [w2 [-> [_ H2]]]].
      apply lang_Lit in H2. subst. apply str_in_app_r, str_in_refl.
    + change (seq ((r :: r' :: rs) ++ [Lit s]))
        with (Seq r (seq ((r' :: rs) ++ [Lit s]))) in H.
      apply lang_Seq_inv in H. destruct H as [w1 [w2 [-> [_ H2]]]].
      apply str_in_app_r, IH, H2.
Qed.

(** A capture can only come from a text that holds the literal the pattern
    begins with. *)
Lemma findall_begins_with (s : string) (r2 : regex) (rs : list regex)
  (text x : string) :
  In x (findall_group1 (seq (Lit s :: r2 :: rs)) text) ->
  str_in s text = true.
Proof.
  intros H. apply findall_group1_nonempty_sound in H.
  destruct H as [pre [w [post [-> Hw]]]].
  apply lang_begins_with in Hw.
  exact (str_in_trans _ _ _ Hw (str_in_middle pre w post)).
Qed.

Lemma findall_dosage (text x : string) :
  In x (findall_group1 dosage_pattern text) -> str_in "mg" text = true.
Proof.
  intros H. apply findall_group1_nonempty_sound in H.
  destruct H as [pre [w [post [-> Hw]]]]. unfold dosage_pattern in Hw.
  apply (lang_ends_with "mg"
           [Group 1 (Plus is_word); Plus is_space; Plus is_digit; Star is_space])
    in Hw.
  exact (str_in_trans _ _ _ Hw (str_in_middle pre w post)).
Qed.

Lemma search_allergy_pattern (allergy text : string) :
  search (allergy_pattern allergy) text = true ->
  str_in allergy text = true /\ str_in "allerg" text = true.
Proof.
  intros H. apply search_sound in H. destruct H as [pre [w [post [-> Hw]]]].
  unfold allergy_pattern in Hw. split.
  - apply (lang_ends_with allergy
             [Lit "allerg"; Plus is_word; Plus is_space; Lit "to"; Plus is_space])
      in Hw.
    exact (str_in_trans _ _ _ Hw (str_in_middle pre w post)).
  - apply lang_begins_with in Hw.
    exact (str_in_trans _ _ _ Hw (str_in_middle pre w post)).
Qed.

(** The vocabulary branch of each extractor. *)
Lemma common_med_extracted (text med : string) :
  In med common_meds -> str_in med text = true ->
  In med (extract_medications text).
Proof.
  intros Hv Hin. unfold extract_medications.
  apply list_set_In, filter_In. split.
  - apply in_or_app; left. apply in_or_app; left. apply in_or_app; left.
    apply filter_In. split; assumption.
  - assert (forallb (fun med => negb (list_in (lower med) non_meds)
                                && (2 <? String.length med)%nat)
                    common_meds = true) as Hall by reflexivity.
    rewrite forallb_forall in Hall. now apply Hall.
Qed.

Lemma common_condition_extracted (text condition : string) :
  In condition common_conditions -> str_in condition text = true ->
  In condition (extract_conditions text).
Proof.
  intros Hv Hin. unfold extract_conditions.
  apply list_set_In. apply in_or_app; left. apply in_or_app; left.
  apply filter_In. split; assumption.
Qed.

Lemma vocabulary_allergen_extracted (text allergy : string) :
  In allergy FoodSafetyKnowledge.ALLERGIES ->
  str_in ("allergic to " ++ allergy) text = true ->
  In allergy (extract_allergies text).
Proof.
  intros Hv Hin. unfold extract_allergies.
  apply list_set_In. apply in_or_app; left.
  apply filter_In. split; [assumption|]. rewrite Hin. apply orb_true_r.
Qed.

End PatternFacts.

Section MinerProperties.

Import Py Re ReFacts PatternFacts FoodSafetyKnowledge RagEngine.

(** X10.  Every term that [extract_medications] returns stands in the text,
    is longer than two characters and is not a stop word; a term outside
    the medication vocabulary is only returned when the text contains
    "prescri", "take" or "mg". *)
Theorem extracted_medications_come_from_text (text x : string) :
  In x (extract_medications text) ->
  str_in x text = true
  /\ 2 < String.length x
  /\ ~ In (lower x) non_meds
  /\ (In x common_meds \/ str_in "prescri" text = true
      \/ str_in "take" text = true \/ str_in "mg" text = true).
Proof.
  unfold extract_medications, prescribed_pattern, take_pattern. intros H.
  apply (proj1 (list_set_In _ _)), filter_In in H. destruct H as [H Hf].
  apply andb_true_iff in Hf. destruct Hf as [Hstop Hlen].
  apply negb_true_iff in Hstop. apply Nat.ltb_lt in Hlen.
  assert (Hns : ~ In (lower x) non_meds).
  { intros Hin. apply list_in_spec in Hin. congruence. }
  repeat (apply in_app_or in H; destruct H as [H | H]).
  - apply filter_In in H. destruct H as [Hv Hin]. auto.
  - repeat split; auto; [eapply findall_group1_str_in; eassumption|].
    right; left. exact (findall_begins_with _ _ _ _ _ H).
  - repeat split; auto; [eapply findall_group1_str_in; eassumption|].
    right; right; left. exact (findall_begins_with _ _ _ _ _ H).
  - repeat split; auto; [eapply findall_group1_str_in; eassumption|].
    right; right; right. exact (findall_dosage _ _ H).
Qed.

Lemma extracted_medications_come_from_text_witness :
  str_in "metformin" "prescribed metformin 500 mg daily" = true
  /\ 2 < String.length "metformin".
Proof.
  destruct (extracted_medications_come_from_text
              "prescribed metformin 500 mg daily" "metformin")
    as [H1 [H2 _]].
  - vm_compute. tauto.
  - split; assumption.
Defined.

(** X11.  Every vocabulary medication that stands in the text is returned by
    [extract_medications]. *)
Theorem vocabulary_medications_are_found (text med : string) :
  In med common_meds -> str_in med text = true ->
  In med (extract_medications text).
Proof. apply common_med_extracted. Qed.

Lemma vocabulary_medications_are_found_witness :
  In "insulin" (extract_medications "insulin before meals").
Proof.
  apply vocabulary_medications_are_found.
  - simpl. tauto.
  - reflexivity.
Defined.

(** X12.  Every term that [extract_conditions] returns stands in the text;
    a term outside the condition vocabulary is only returned when the text
    contains "diagnos" or "treat". *)
Theorem extracted_conditions_come_from_text (text x : string) :
  In x (extract_conditions text) ->
  str_in x text = true
  /\ (In x common_conditions \/ str_in "diagnos" text = true
      \/ str_in "treat" text = true).
Proof.
  unfold extract_conditions, diagnosed_pattern, treat_pattern. intros H.
  apply (proj1 (list_set_In _ _)) in H.
  repeat (apply in_app_or in H; destruct H as [H | H]).
  - apply filter_In in H. destruct H as [Hv Hin]. auto.
  - split; [eapply findall_group1_str_in; eassumption|].
    right; left. exact (findall_begins_with _ _ _ _ _ H).
  - split; [eapply findall_group1_str_in; eassumption|].
    right; right. exact (findall_begins_with _ _ _ _ _ H).
Qed.

Lemma extracted_conditions_come_from_text_witness :
  str_in "type 2" "diagnosed with type 2 diabetes" = true.
Proof.
  apply (extracted_conditions_come_from_text
           "diagnosed with type 2 diabetes" "type 2").
  vm_compute. tauto.
Defined.

(** X13.  Every vocabulary condition that stands in the text is returned by
    [extract_conditions]. *)
Theorem vocabulary_conditions_are_found (text condition : string) :
  In condition common_conditions -> str_in condition text = true ->
  In condition (extract_conditions text).
Proof. apply common_condition_extracted. Qed.

Lemma vocabulary_conditions_are_found_witness :
  In "asthma" (extract_conditions "history of asthma").
Proof.
  apply vocabulary_conditions_are_found.
  - simpl. tauto.
  - reflexivity.
Defined.

(** X14.  Every term that [extract_allergies] returns stands in the text,
    and nothing is returned unless the text contains "allerg". *)
Theorem extracted_allergies_come_from_text (text x : string) :
  In x (extract_allergies text) ->
  str_in x text = true /\ str_in "allerg" text = true.
Proof.
  unfold extract_allergies, allergic_pattern. intros H.
  apply (proj1 (list_set_In _ _)), in_app_or in H. destruct H as [H | H].
  - apply filter_In in H. destruct H as [_ H].
    apply orb_true_iff in H. destruct H as [H | H].
    + now apply search_allergy_pattern.
    + split.
      * refine (str_in_trans _ _ _ _ H). apply str_in_app_r, str_in_refl.
      * refine (str_in_trans _ _ _ _ H).
        apply (str_in_app_l "allerg" "allergic to " x). reflexivity.
  - split; [eapply findall_group1_str_in; eassumption|].
    exact (findall_begins_with _ _ _ _ _ H).
Qed.

Lemma extracted_allergies_come_from_text_witness :
  str_in "tree nuts" "allergy to tree nuts" = true
  /\ str_in "allerg" "allergy to tree nuts" = true.
Proof.
  apply (extracted_allergies_come_from_text "allergy to tree nuts" "tree nuts").
  vm_compute. tauto.
Defined.

(** X15.  A vocabulary allergen that directly follows "allergic to " in the
    text is returned by [extract_allergies]. *)
Theorem allergen_after_allergic_to_is_found (text allergy : string) :
  In allergy ALLERGIES ->
  str_in ("allergic to " ++ allergy) text = true ->
  In allergy (extract_allergies text).
Proof. apply vocabulary_allergen_extracted. Qed.

Lemma allergen_after_allergic_to_is_found_witness :
  In "shellfish" (extract_allergies "patient is allergic to shellfish").
Proof.
  apply allergen_after_allergic_to_is_found.
  - simpl. tauto.
  - reflexivity.
Defined.

End MinerProperties.

(* ================================================================== *)
(** * From the prescription to the verdict *)
(* ================================================================== *)

Module AggregationFacts.

Import Py FoodSafetyKnowledge RagEngine MinerFacts.

Lemma collect_fold_keeps (lookup : string -> list string) (xs : list string)
  (f : string) :
  forall out, In f out ->
  In f (fold_left (fun out x => let foods := lookup x in
                               if truthy foods then out ++ foods else out)
                  xs out).
Proof.
  induction xs as [|x xs IH]; simpl; intros out H; [assumption|].
  apply IH. destruct (truthy (lookup x)); [apply in_or_app; now left | assumption].
Qed.

Lemma In_collect (lookup : string -> list string) (xs : list string)
  (x f : string) :
  In x xs -> In f (lookup x) -> In f (collect lookup xs).
Proof.
  unfold collect. generalize (@nil string) as out.
  induction xs as [|y xs IH]; simpl; intros out Hx Hf; [contradiction|].
  destruct Hx as [-> | Hx].
  - apply collect_fold_keeps.
    destruct (lookup x) as [|a l]; [contradiction|]. simpl.
    apply in_or_app. now right.
  - now apply IH.
Qed.

(** The restriction list is the union of its three sources. *)
Lemma restrictions_spec (text x : string) :
  let f := analyze_prescription (Some text) in
  In x (restrictions f)
  <-> (exists medication,
         In medication (medications f)
         /\ In x (get_risky_foods_for_medication medication))
      \/ (exists condition,
            In condition (conditions f)
            /\ In x (get_foods_to_avoid_for_condition condition))
      \/ In x (allergies f).
Proof.
  cbn [analyze_prescription analyze_prescription_try restrictions medications
       conditions allergies].
  rewrite list_set_In, !in_app_iff. split.
  - intros [H | [H | H]].
    + left. now apply collect_In.
    + right; left. now apply collect_In.
    + now right; right.
  - intros [[m [Hm H]] | [[c [Hc H]] | H]].
    + left. eapply In_collect; eassumption.
    + right; left. eapply In_collect; eassumption.
    + now right; right.
Qed.

End AggregationFacts.

Section PipelineProperties.

Import Py FoodSafetyKnowledge RagEngine Statements Tests EvaluatorFacts
       RecordingFacts MinerFacts PatternFacts AggregationFacts.

(** X16.  The restriction list of [analyze_prescription] is the union of the
    risky foods of the medications found, the foods to avoid of the
    conditions found and the allergies found: a term is a restriction
    exactly when it comes from one of the three. *)
Theorem restrictions_are_the_union (text x : string) :
  let f := analyze_prescription (Some text) in
  In x (restrictions f)
  <-> (exists medication,
         In medication (medications f)
         /\ In x (get_risky_foods_for_medication medication))
      \/ (exists condition,
            In condition (conditions f)
            /\ In x (get_foods_to_avoid_for_condition condition))
      \/ In x (allergies f).
Proof. apply restrictions_spec. Qed.

(** X17.  End to end: if the prescription says "allergic to <allergen>" for
    an allergen of the vocabulary (in any letter case) and that allergen
    occurs in the food name or in an ingredient, the food is reported
    unsafe and the allergen is among the offending items. *)
Theorem stated_allergy_makes_food_unsafe (text food_name : string)
  (fi : food_record) (allergy : string) :
  In allergy ALLERGIES ->
  str_in ("allergic to " ++ allergy) (lower text) = true ->
  found_in allergy food_name (ingredients_used fi) = true ->
  let v := check_food_safety (Some food_name) (Some fi)
             (Some (analyze_prescription (Some text))) in
  v_is_safe v = false
  /\ In allergy (v_unsafe_ingredients v)
  /\ In (allergy ++ " is listed in your allergies.")%string (v_explanation v).
Proof.
  intros Hv Hin Hf. apply recorded_in_verdict. unfold checks.
  apply check_allergies_records; [|assumption].
  cbn [analyze_prescription analyze_prescription_try allergies].
  now apply vocabulary_allergen_extracted.
Qed.

Lemma stated_allergy_makes_food_unsafe_witness :
  v_is_safe
    (check_food_safety
       (Some "Shellfish Stew")
       (Some {| fi_name := "Shellfish Stew"; fi_ingredients := None;
                fi_description := None; fi_source := "general" |})
       (Some (analyze_prescription (Some "Patient is ALLERGIC to shellfish."))))
  = false.
Proof.
  apply (stated_allergy_makes_food_unsafe
           "Patient is ALLERGIC to shellfish." "Shellfish Stew" _ "shellfish").
  - simpl. tauto.
  - reflexivity.
  - reflexivity.
Defined.

(** X18.  End to end: if the prescription mentions a medication of the
    vocabulary and a food that the knowledge base returns for it occurs in
    the food name or in an ingredient, the food is reported unsafe and the
    risky food is among the offending items. *)
Theorem mentioned_medication_makes_food_unsafe (text food_name : string)
  (fi : food_record) (medication risky_food : string) :
  In medication common_meds ->
  str_in medication (lower text) = true ->
  In risky_food (get_risky_foods_for_medication medication) ->
  found_in risky_food food_name (ingredients_used fi) = true ->
  let v := check_food_safety (Some food_name) (Some fi)
             (Some (analyze_prescription (Some text))) in
  v_is_safe v = false
  /\ In risky_food (v_unsafe_ingredients v)
  /\ In (risky_food ++ " may interact with your medication "
         ++ medication ++ ".")%string
        (v_explanation v).
Proof.
  intros Hv Hin Hr Hf. apply recorded_in_verdict. unfold checks.
  eapply recorded_keeps; [apply check_allergies_keeps|].
  apply check_medications_records; try assumption.
  cbn [analyze_prescription analyze_prescription_try medications].
  now apply common_med_extracted.
Qed.

Lemma mentioned_medication_makes_food_unsafe_witness :
  v_is_safe
    (check_food_safety
       (Some "Cranberries, dried")
       (Some {| fi_name := "Cranberries, dried"; fi_ingredients := None;
                fi_description := None; fi_source := "general" |})
       (Some (analyze_prescription (Some "Warfarin 5 mg once daily"))))
  = false.
Proof.
  apply (mentioned_medication_makes_food_unsafe
           "Warfarin 5 mg once daily" "Cranberries, dried" _
           "warfarin" "cranberries").
  - simpl. tauto.
  - reflexivity.
  - simpl. tauto.
  - reflexivity.
Defined.

(** X19.  End to end: if the prescription mentions a condition of the
    vocabulary and a food that the knowledge base returns for it matches an
    ingredient (either one inside the other), the food is reported unsafe
    and the ingredient is among the offending items. *)
Theorem mentioned_condition_makes_ingredient_unsafe (text food_name : string)
  (fi : food_record) (condition food ingredient : string) :
  In condition common_conditions ->
  str_in condition (lower text) = true ->
  In food (get_foods_to_avoid_for_condition condition) ->
  In ingredient (ingredients_used fi) ->
  term_matches food ingredient = true ->
  let v := check_food_safety (Some food_name) (Some fi)
             (Some (analyze_prescription (Some text))) in
  v_is_safe v = false
  /\ In ingredient (v_unsafe_ingredients v)
  /\ In (ingredient
         ++ " may interact with your health condition or medication.")%string
        (v_explanation v).
Proof.
  intros Hv Hin Hf Hi Hm. apply recorded_in_verdict. unfold checks.
  eapply recorded_keeps; [apply check_allergies_keeps|].
  eapply recorded_keeps; [apply check_medications_keeps|].
  apply (check_ingredients_records _ _ _ ingredient food); try assumption.
  apply restrictions_spec. right; left. exists condition.
  split; [|assumption].
  cbn [analyze_prescription analyze_prescription_try conditions].
  now apply common_condition_extracted.
Qed.

Lemma mentioned_condition_makes_ingredient_unsafe_witness :
  v_is_safe
    (check_food_safety
       (Some "cookies")
       (Some {| fi_name := "cookies";
                fi_ingredients := Some ["flour"; "brown sugar"];
                fi_description := None; fi_source := "general" |})
       (Some (analyze_prescription (Some "Type 2 Diabetes, diet controlled"))))
  = false.
Proof.
  apply (mentioned_condition_makes_ingredient_unsafe
           "Type 2 Diabetes, diet controlled" "cookies" _
           "diabetes" "sugar" "brown sugar").
  - simpl. tauto.
  - reflexivity.
  - simpl. tauto.
  - simpl. tauto.
  - reflexivity.
Defined.

End PipelineProperties.

(* ================================================================== *)
(** * More about the ingredient extractor *)
(* ================================================================== *)

Module IngredientFacts.

Import Py Re ReLang ReFacts WebScraper Whitespace.

Lemma isspace_lower_ascii (c : ascii) : isspace (lower_ascii c) = isspace c.
Proof. destruct c as [[] [] [] [] [] [] [] []]; reflexivity. Qed.

Lemma lstrip_lower (s : string) : lstrip (lower s) = lower (lstrip s).
Proof.
  induction s as [|c s IH]; simpl; [reflexivity|].
  rewrite isspace_lower_ascii. destruct (isspace c); [exact IH | reflexivity].
Qed.

Lemma rstrip_lower (s : string) : rstrip (lower s) = lower (rstrip s).
Proof.
  induction s as [|c s IH]; simpl; [reflexivity|].
  rewrite IH, isspace_lower_ascii.
  destruct (rstrip s); simpl; [destruct (isspace c)|]; reflexivity.
Qed.

Lemma strip_lower (s : string) : strip (lower s) = lower (strip s).
Proof. unfold strip. now rewrite lstrip_lower, rstrip_lower. Qed.

Lemma rstrip_idem (s : string) : rstrip (rstrip s) = rstrip s.
Proof.
  induction s as [|c s IH]; simpl; [reflexivity|].
  destruct (rstrip s) as [|d r] eqn:E.
  - destruct (isspace c) eqn:Hc; simpl; [reflexivity | now rewrite Hc].
  - cbn [rstrip]. cbn [rstrip] in IH. rewrite IH. reflexivity.
Qed.

Lemma lstrip_no_space_ahead (s : string) : no_space_ahead (lstrip s).
Proof.
  induction s as [|c s IH]; simpl; [exact I|].
  destruct (isspace c) eqn:Hc; [exact IH | exact Hc].
Qed.

Lemma rstrip_no_space_ahead (s : string) :
  no_space_ahead s -> no_space_ahead (rstrip s).
Proof.
  destruct s as [|c s]; simpl; [trivial|]. intros Hc.
  destruct (rstrip s); [rewrite Hc|]; exact Hc.
Qed.

Lemma lstrip_fixed (s : string) : no_space_ahead s -> lstrip s = s.
Proof. destruct s as [|c s]; simpl; [trivial | now intros ->]. Qed.

Lemma strip_idem (s : string) : strip (strip s) = strip s.
Proof.
  unfold strip.
  rewrite (lstrip_fixed (rstrip (lstrip s))).
  - apply rstrip_idem.
  - apply rstrip_no_space_ahead, lstrip_no_space_ahead.
Qed.

(** An item taken from a matched run is in lower case and stripped. *)
Lemma items_of_normal (m x : string) :
  In x (items_of m) -> lower x = x /\ strip x = x.
Proof.
  unfold items_of. intros H. apply in_map_iff in H.
  destruct H as [item [<- _]]. split.
  - apply lower_idem.
  - now rewrite <- strip_lower, strip_idem.
Qed.

Lemma common_ingredients_normal (x : string) :
  In x common_ingredients -> lower x = x /\ strip x = x.
Proof.
  intros H.
  assert (forallb (fun x => String.eqb (lower x) x && String.eqb (strip x) x)
                  common_ingredients = true) as Hall by reflexivity.
  rewrite forallb_forall in Hall. specialize (Hall _ H).
  apply andb_true_iff in Hall. destruct Hall as [H1 H2].
  split; now apply String.eqb_eq.
Qed.

(** Only the colon passes for a colon under [re.IGNORECASE]. *)
Lemma colon_only (c : ascii) :
  Ascii.eqb (lower_ascii c) (lower_ascii ":") = true -> c = ":"%char.
Proof.
  destruct c as [[] [] [] [] [] [] [] []]; simpl; intros H;
    first [reflexivity | discriminate H].
Qed.

Lemma lang_pattern_has_colon (a b : string) (w : string) :
  lang (seq [Alt (Lit_i a) (Lit_i b); Lit_i ":"; Group 1 (Plus not_dot)]) w ->
  str_in ":" w = true.
Proof.
  intros H.
  change (lang (Seq (Alt (Lit_i a) (Lit_i b))
                    (Seq (Lit_i ":") (Group 1 (Plus not_dot)))) w) in H.
  apply lang_Seq_inv in H. destruct H as [w1 [w2 [-> [_ H]]]].
  apply lang_Seq_inv in H. destruct H as [w3 [w4 [-> [H _]]]].
  simpl in H. apply lang_Seq_inv in H. destruct H as [w5 [w6 [-> [H _]]]].
  inversion H as [ | p0 c0 Hp | | | | | | | | ]; subst.
  apply colon_only in Hp. subst c0.
  apply str_in_app_r, str_in_app_l, str_in_app_l. reflexivity.
Qed.

Lemma patterns_need_colon (pattern : regex) (text x : string) :
  In pattern patterns -> In x (findall_group1 pattern text) ->
  str_in ":" text = true.
Proof.
  intros Hp Hx. apply findall_group1_nonempty_sound in Hx.
  destruct Hx as [pre [w [post [-> Hw]]]].
  refine (str_in_trans _ _ _ _ (str_in_middle pre w post)).
  unfold patterns in Hp.
  destruct Hp as [<- | [<- | [<- | []]]];
    [ exact (lang_pattern_has_colon "ingredients" "contains" _ Hw)
    | exact (lang_pattern_has_colon "made from" "composed of" _ Hw)
    | exact (lang_pattern_has_colon "ingredients include" "contains" _ Hw) ].
Qed.

Lemma no_colon_no_labelled_run (text : string) :
  str_in ":" text = false ->
  flat_map (fun pattern => flat_map items_of (findall_group1 pattern text))
           patterns = [].
Proof.
  intros H.
  destruct (flat_map _ patterns) as [|x l] eqn:E; [reflexivity|].
  assert (Hin : In x (flat_map
             (fun pattern => flat_map items_of (findall_group1 pattern text))
             patterns)) by (rewrite E; now left).
  apply in_flat_map in Hin. destruct Hin as [pattern [Hp Hin]].
  apply in_flat_map in Hin. destruct Hin as [m [Hm _]].
  rewrite (patterns_need_colon _ _ _ Hp Hm) in H. discriminate H.
Qed.

End IngredientFacts.

Section IngredientProperties.

Import Py WebScraper IngredientFacts.

(** X20.  Every ingredient that [extract_ingredients_from_text] returns is
    normalised: it is in lower case and has no white space at either end. *)
Theorem extracted_ingredients_are_normalised (text x : string) :
  In x (extract_ingredients_from_text text) ->
  lower x = x /\ strip x = x.
Proof.
  unfold extract_ingredients_from_text. intros H.
  apply (proj1 (list_set_In _ _)) in H.
  destruct (truthy _).
  - apply in_flat_map in H. destruct H as [pattern [_ H]].
    apply in_flat_map in H. destruct H as [m [_ H]].
    exact (items_of_normal _ _ H).
  - apply filter_In in H. destruct H as [H _].
    exact (common_ingredients_normal _ H).
Qed.

Lemma extracted_ingredients_are_normalised_witness :
  lower "whole milk" = "whole milk" /\ strip "whole milk" = "whole milk".
Proof.
  apply (extracted_ingredients_are_normalised
           "CONTAINS:  Whole Milk , Sugar. Keep cool." "whole milk").
  vm_compute. tauto.
Defined.

(** X21.  For a text without a colon no labelled ingredient list can be
    found, and [extract_ingredients_from_text] returns exactly the common
    ingredients that occur in the lower-cased text. *)
Theorem without_colon_common_ingredients (text x : string) :
  str_in ":" text = false ->
  (In x (extract_ingredients_from_text text)
   <-> In x common_ingredients /\ str_in x (lower text) = true).
Proof.
  intros H. unfold extract_ingredients_from_text.
  rewrite (no_colon_no_labelled_run _ H). cbn [truthy].
  rewrite list_set_In.
  apply (filter_In (fun ingredient => str_in ingredient (lower text))).
Qed.

Lemma without_colon_common_ingredients_witness :
  In "peanuts" (extract_ingredients_from_text "Roasted PEANUTS with sea salt")
  <-> In "peanuts" common_ingredients
      /\ str_in "peanuts" (lower "Roasted PEANUTS with sea salt") = true.
Proof.
  apply without_colon_common_ingredients. reflexivity.
Defined.

End IngredientProperties.

(* ================================================================== *)
(** * More about the description extractor, the file test and the keys *)
(* ================================================================== *)

Module BreakFacts.

Import Py WebScraper Statements Whitespace.

Lemma ends_with_nl_snoc (cur : string) (c : ascii) :
  ends_with_nl (cur ++ String c "") = Ascii.eqb c "010".
Proof.
  induction cur as [|a cur IH]; [reflexivity|].
  destruct cur as [|b cur]; [reflexivity|]. exact IH.
Qed.

Lemma str_in_cons (s : string) (a : ascii) (t : string) :
  str_in s (String a t) = startswith s (String a t) || str_in s t.
Proof. reflexivity. Qed.

Lemma str_in_break_snoc (cur : string) (c : ascii) :
  str_in paragraph_break (cur ++ String c "")
  = str_in paragraph_break cur || (ends_with_nl cur && Ascii.eqb c "010").
Proof.
  unfold paragraph_break.
  induction cur as [|a cur IH].
  - cbn [str_in startswith append ends_with_nl]. now rewrite !andb_false_r.
  - destruct cur as [|b cur].
    + cbn [str_in startswith append ends_with_nl].
      rewrite !andb_true_r, !andb_false_r, !orb_false_r.
      cbn [orb].
      now rewrite (Ascii.eqb_sym "010" a), (Ascii.eqb_sym "010" c).
    + cbn [append] in IH |- *.
      rewrite (str_in_cons _ a), IH, (str_in_cons _ a (String b cur)).
      change (ends_with_nl (String a (String b cur)))
        with (ends_with_nl (String b cur)).
      cbn [startswith]. rewrite !orb_assoc. reflexivity.
Qed.

(** The first piece of the split holds no break, and the text is that
    piece, or that piece followed by a break. *)
Lemma head_before_break (s : string) :
  forall cur,
    str_in paragraph_break cur = false ->
    ends_with_nl cur && starts_with_nl s = false ->
    exists d tl,
      split_nn_acc cur s = d :: tl
      /\ str_in paragraph_break d = false
      /\ ((cur ++ s)%string = d
          \/ exists rest, (cur ++ s)%string = (d ++ paragraph_break ++ rest)%string).
Proof.
  induction s as [|c s IH]; intros cur Hc Hb.
  - exists cur, []. repeat split; [exact Hc|]. left. apply append_nil_r.
  - assert (Hsnoc : str_in paragraph_break (cur ++ String c "") = false).
    { rewrite str_in_break_snoc, Hc. exact Hb. }
    cbn [split_nn_acc]. destruct s as [|d rest].
    + exists (cur ++ String c "")%string, []. repeat split; [exact Hsnoc|].
      now left.
    + destruct (Ascii.eqb c "010" && Ascii.eqb d "010") eqn:E.
      * exists cur, (split_nn_acc "" rest). repeat split; [exact Hc|].
        right. exists rest. apply andb_true_iff in E. destruct E as [E1 E2].
        apply Ascii.eqb_eq in E1, E2. subst. reflexivity.
      * destruct (IH (cur ++ String c "")%string Hsnoc) as [d0 [tl [Hs [Hd Hor]]]].
        { rewrite ends_with_nl_snoc. exact E. }
        exists d0, tl. rewrite <- append_assoc in Hor. simpl in Hor.
        repeat split; assumption.
Qed.

End BreakFacts.

Module FileNameFacts.

Import Py App.

Lemma str_in_dot_cons (c : ascii) (s : string) :
  str_in "." (String c s) = Ascii.eqb "." c || str_in "." s.
Proof. cbn [str_in startswith]. now rewrite andb_true_r. Qed.

Lemma split_at_last_dot_none (s : string) :
  split_at_last_dot s = None <-> str_in "." s = false.
Proof.
  induction s as [|c s IH]; [split; reflexivity|].
  rewrite str_in_dot_cons, orb_false_iff, <- IH. cbn [split_at_last_dot].
  rewrite (Ascii.eqb_sym "." c).
  destruct (split_at_last_dot s) as [[a b]|].
  - split; [discriminate | intros [_ H]; discriminate H].
  - destruct (Ascii.eqb c "."); split; try discriminate; auto.
    intros [H _]. discriminate H.
Qed.

Lemma split_at_last_dot_some (s a b : string) :
  split_at_last_dot s = Some (a, b) ->
  s = (a ++ "." ++ b)%string /\ str_in "." b = false.
Proof.
  revert a. induction s as [|c s IH]; intros a H; [discriminate H|].
  cbn [split_at_last_dot] in H.
  destruct (split_at_last_dot s) as [[a' b']|] eqn:E.
  - injection H as <- <-. destruct (IH a' eq_refl) as [-> Hb].
    split; [reflexivity | exact Hb].
  - destruct (Ascii.eqb c ".") eqn:Hc; [|discriminate H].
    injection H as <- <-. apply Ascii.eqb_eq in Hc. subst c.
    split; [reflexivity | now apply split_at_last_dot_none].
Qed.

Lemma split_at_last_dot_app (stem ext : string) :
  str_in "." ext = false ->
  split_at_last_dot (stem ++ "." ++ ext) = Some (stem, ext).
Proof.
  intros H. apply split_at_last_dot_none in H.
  induction stem as [|c stem IH]; simpl.
  - now rewrite H.
  - simpl in IH. now rewrite IH.
Qed.

Lemma allowed_file_spec (filename : string) :
  exists b,
    allowed_file filename = Some b
    /\ (b = true
        <-> exists stem ext,
              filename = (stem ++ "." ++ ext)%string
              /\ str_in "." ext = false
              /\ In (lower ext) ALLOWED_EXTENSIONS).
Proof.
  unfold allowed_file, rsplit_dot_1.
  destruct (str_in "." filename) eqn:Hdot.
  - destruct (split_at_last_dot filename) as [[a b]|] eqn:E.
    + cbn [nth_error]. eexists. split; [reflexivity|].
      destruct (split_at_last_dot_some _ _ _ E) as [Hf Hb].
      rewrite list_in_spec. split.
      * intros H. now exists a, b.
      * intros [stem [ext [Hs [He Hin]]]].
        rewrite Hs, (split_at_last_dot_app _ _ He) in E.
        injection E as <- <-. exact Hin.
    + apply split_at_last_dot_none in E. congruence.
  - exists false. split; [reflexivity|]. split; [discriminate|].
    intros [stem [ext [-> _]]].
    rewrite (proj2 (str_in_spec "." (stem ++ "." ++ ext))) in Hdot;
      [discriminate Hdot | now exists stem, ext].
Qed.

End FileNameFacts.

Section FurtherProperties.

Import Py FoodSafetyKnowledge WebScraper Statements App BreakFacts FileNameFacts.

(** X22.  What [extract_description] returns is the text up to its first
    paragraph break: it holds no paragraph break itself, and the text is
    either what is returned or what is returned followed by a paragraph
    break and more text. *)
Theorem description_is_text_before_first_break (text : string) :
  let d := extract_description text in
  str_in paragraph_break d = false
  /\ (text = d
      \/ exists rest, text = (d ++ paragraph_break ++ rest)%string).
Proof.
  unfold extract_description, split_nn.
  destruct (head_before_break text "" eq_refl eq_refl) as [d [tl [-> H]]].
  exact H.
Qed.

(** X23.  [allowed_file] never fails on the subscript, and it accepts a file
    name exactly when the text after its last dot is, ignoring case, one of
    pdf, png, jpg and jpeg; a name without a dot is refused. *)
Theorem allowed_file_checks_last_extension (filename : string) :
  exists b,
    allowed_file filename = Some b
    /\ (b = true
        <-> exists stem ext,
              filename = (stem ++ "." ++ ext)%string
              /\ str_in "." ext = false
              /\ In (lower ext) ["pdf"; "png"; "jpg"; "jpeg"]).
Proof. apply allowed_file_spec. Qed.

(** X24.  No key of the two tables is shadowed by an earlier key: looking a
    key up, in any letter case, returns the foods listed under that very
    key. *)
Theorem key_lookup_returns_its_entry (name key : string) (foods : list string) :
  lower name = key ->
  (In (key, foods) INTERACTIONS ->
   get_risky_foods_for_medication name = foods)
  /\ (In (key, foods) CONDITIONS ->
      get_foods_to_avoid_for_condition name = foods).
Proof.
  intros Hn.
  unfold get_risky_foods_for_medication, get_foods_to_avoid_for_condition.
  rewrite Hn. split; intros H.
  - unfold INTERACTIONS in H. cbn [In] in H.
    repeat (destruct H as [H | H]; [injection H as <- <-; reflexivity|]).
    contradiction.
  - unfold CONDITIONS in H. cbn [In] in H.
    repeat (destruct H as [H | H]; [injection H as <- <-; reflexivity|]).
    contradiction.
Qed.

Lemma key_lookup_returns_its_entry_witness :
  get_risky_foods_for_medication "Thyroid Medication"
  = ["soy"; "walnuts"; "high-fiber foods"]
  /\ get_foods_to_avoid_for_condition "GOUT"
     = ["red meat"; "organ meats"; "seafood"; "alcohol"; "high-fructose"].
Proof.
  split.
  - apply (proj1 (key_lookup_returns_its_entry
                    "Thyroid Medication" "thyroid medication" _ eq_refl)).
    simpl. tauto.
  - apply (proj2 (key_lookup_returns_its_entry "GOUT" "gout" _ eq_refl)).
    simpl. tauto.
Defined.

End FurtherProperties.
